(** * libc_pointcloud: the metadata linker and the raster converter

    A shallow embedding of [wa_metadata.py] and [wb_laz2tif.py].

    Python strings are [string]s (bytes; every delimiter the code looks for is
    ASCII, so prefix tests, splitting and replacement agree with Python's on
    UTF-8 text).  Table cells and dynamically typed arguments are [pyval]s.
    The operating system, the clock and the PDAL engine are external: the
    converter is written against the interface [Host] and a small
    state-and-exception monad over it. *)

From stdpp Require Import gmap strings list fin_maps pretty.
From Stdlib Require Import ZArith String Ascii Lia Permutation.

Open Scope string_scope.

(** ** Python's [str] methods and [os.path] (posixpath) *)

Module Py.

(** [s.startswith(pre)] *)
Fixpoint startswith (s pre : string) {struct pre} : bool :=
  match pre with
  | EmptyString => true
  | String a pre' =>
      match s with
      | EmptyString => false
      | String b s' => if Ascii.eqb a b then startswith s' pre' else false
      end
  end.

(** [s.endswith(suf)] *)
Fixpoint endswith (s suf : string) : bool :=
  if String.eqb s suf then true
  else match s with
       | EmptyString => false
       | String _ s' => endswith s' suf
       end.

(** [s.split(sep)[0]] for a non-empty [sep]: the text before the first
    occurrence of [sep], the whole of [s] when there is none. *)
Fixpoint split_head (s sep : string) : string :=
  if startswith s sep then EmptyString
  else match s with
       | EmptyString => EmptyString
       | String c s' => String c (split_head s' sep)
       end.

(** [sep in s] *)
Fixpoint contains (s sep : string) : bool :=
  if startswith s sep then true
  else match s with
       | EmptyString => false
       | String _ s' => contains s' sep
       end.

(** [s.replace(old, new)] for a non-empty [old]: every occurrence, left to
    right, without overlap.  [skip] counts the characters of an occurrence
    still to be consumed. *)
Fixpoint replace_go (old new : string) (skip : nat) (s : string) : string :=
  match s with
  | EmptyString => EmptyString
  | String c s' =>
      match skip with
      | S k => replace_go old new k s'
      | O => if startswith s old
             then new ++ replace_go old new (String.length old - 1) s'
             else String c (replace_go old new 0 s')
      end
  end.

Definition replace (s old new : string) : string := replace_go old new 0 s.

Definition has_slash (p : string) : bool := contains p "/".

(** [os.path.basename(p)]: what follows the last slash. *)
Fixpoint basename (p : string) : string :=
  match p with
  | EmptyString => EmptyString
  | String c p' =>
      if has_slash p' then basename p'
      else if Ascii.eqb c "/" then p' else p
  end.

(** [os.path.join(a, b)] *)
Definition join (a b : string) : string :=
  if startswith b "/" then b
  else if String.eqb a EmptyString || endswith a "/" then a ++ b
  else a ++ "/" ++ b.

End Py.

(** ** Python values and exceptions *)

(** A geometry of the vector library: a point, or any other shape by its
    well-known text. *)
Inductive geometry :=
  | Point (x y : Z)
  | Shape (wkt : string).

(** What a table cell or an untyped argument can hold.  [PyNaN] is how pandas
    reads an empty field. *)
Inductive pyval :=
  | PyStr (s : string)
  | PyInt (z : Z)
  | PyNaN
  | PyNone
  | PyGeom (g : geometry).

(** An exception of class [Exception], which is what [except Exception]
    catches, by the name of its class and the text [str(e)] gives. *)
Record Exception := mkException { exc_class : string; exc_str : string }.

Definition result (A : Type) : Type := Exception + A.

Definition raise {A} (cls msg : string) : result A := inl (mkException cls msg).

Definition type_name (v : pyval) : string :=
  match v with
  | PyStr _ => "str"
  | PyInt _ => "int"
  | PyNaN => "float"
  | PyNone => "NoneType"
  | PyGeom (Point _ _) => "Point"
  | PyGeom (Shape _) => "BaseGeometry"
  end.

(** [str(v)], also what an f-string puts for [{v}]. *)
Definition py_str (v : pyval) : string :=
  match v with
  | PyStr s => s
  | PyInt z => pretty z
  | PyNaN => "nan"
  | PyNone => "None"
  | PyGeom (Point x y) => "POINT (" ++ pretty x ++ " " ++ pretty y ++ ")"
  | PyGeom (Shape wkt) => wkt
  end.

(** [pandas.isnull] on one cell. *)
Definition isnull (v : pyval) : bool :=
  match v with
  | PyNaN | PyNone => true
  | _ => false
  end.

Definition notnull (v : pyval) : bool := negb (isnull v).

(** [os.path.basename(v)] on an untyped value. *)
Definition os_path_basename (v : pyval) : result string :=
  match v with
  | PyStr s => inr (Py.basename s)
  | _ => raise "TypeError"
           ("expected str, bytes or os.PathLike object, not " ++ type_name v)
  end.

(** [v.replace(old, new)] on an untyped value. *)
Definition method_replace (v : pyval) (old new : string) : result pyval :=
  match v with
  | PyStr s => inr (PyStr (Py.replace s old new))
  | _ => raise "AttributeError"
           ("'" ++ type_name v ++ "' object has no attribute 'replace'")
  end.

(** Exceptions propagate through [result] as through Python statements. *)
Global Instance result_ret : MRet result := λ A x, inr x.
Global Instance result_bind : MBind result := λ A B f m,
  match m with
  | inl e => inl e
  | inr x => f x
  end.

(** ** [wa_metadata.py]: the metadata linker *)

Module Linker.

(** The loop of [find_closest_match_datafile]: the first full path whose
    basename starts with [base_datafile], [None] when the loop runs out. *)
Fixpoint first_match (base_datafile : string) (basenames : list string) : pyval :=
  match basenames with
  | [] => PyNone
  | fullpath :: rest =>
      let basename := Py.basename fullpath in
      if Py.startswith basename base_datafile then PyStr fullpath
      else first_match base_datafile rest
  end.

Definition find_closest_match_datafile (datafile : pyval) (basenames : list string)
  : result pyval :=
  b ← os_path_basename datafile;
  let base_datafile := Py.split_head b "_dn_" in
  mret (first_match base_datafile basenames).

(** A (Geo)DataFrame, column by column: the row labels, the columns by name,
    the coordinate reference system as an EPSG code ([None] when there is
    none), and the class of the object.  [gpd.read_file] returns a
    GeoDataFrame for a layer with geometry and a plain pandas DataFrame, which
    has no [crs], [to_crs] or [to_file], for a layer without. *)
Record GeoDataFrame := mkFrame {
  gdf_index : list nat;
  gdf_columns : gmap string (list pyval);
  gdf_crs : option Z;
  gdf_geo : bool
}.

(** [len(meta)] *)
Definition len (meta : GeoDataFrame) : nat := List.length (gdf_index meta).

(** [meta[col]] *)
Definition getitem (meta : GeoDataFrame) (col : string) : result (list pyval) :=
  match gdf_columns meta !! col with
  | Some vals => mret vals
  | None => raise "KeyError" ("'" ++ col ++ "'")
  end.

(** [meta[col] = vals] *)
Definition setitem (meta : GeoDataFrame) (col : string) (vals : list pyval)
  : GeoDataFrame :=
  mkFrame (gdf_index meta) (<[col := vals]> (gdf_columns meta)) (gdf_crs meta)
          (gdf_geo meta).

(** ['geometry' not in meta.columns or meta.geometry.isnull().all()] *)
Definition lacks_geometry (meta : GeoDataFrame) : bool :=
  match gdf_columns meta !! "geometry" with
  | None => true
  | Some geoms => forallb isnull geoms
  end.

Definition placeholder : pyval := PyGeom (Point 0 0).

(** Lines 33-35. *)
Definition ensure_geometry (meta : GeoDataFrame) : GeoDataFrame :=
  if lacks_geometry meta
  then setitem meta "geometry" (replicate (len meta) placeholder)
  else meta.

(** Lines 38-40.  On a plain DataFrame the attribute [crs] of line 38 does
    not exist. *)
Definition ensure_crs (meta : GeoDataFrame) : result GeoDataFrame :=
  if gdf_geo meta then
    match gdf_crs meta with
    | None => mret (mkFrame (gdf_index meta) (gdf_columns meta) (Some 4326%Z) true)
    | Some _ => mret meta
    end
  else raise "AttributeError" "'DataFrame' object has no attribute 'crs'".

(** [series.apply(f)] with an [f] that may raise. *)
Fixpoint series_apply (f : pyval → result pyval) (series : list pyval)
  : result (list pyval) :=
  match series with
  | [] => mret []
  | x :: rest => y ← f x; ys ← series_apply f rest; mret (y :: ys)
  end.

(** Line 43. *)
Definition assign_filepath (basenames : list string) (meta : GeoDataFrame)
  : result GeoDataFrame :=
  datafile ← getitem meta "datafile";
  filepath ← series_apply (λ x, find_closest_match_datafile x basenames) datafile;
  mret (setitem meta "filepath" filepath).

(** Selection by a boolean mask, on one column. *)
Fixpoint select {A} (mask : list bool) (vals : list A) : list A :=
  match mask, vals with
  | b :: mask', v :: vals' => if b then v :: select mask' vals' else select mask' vals'
  | _, _ => []
  end.

(** Line 47: [meta[meta['filepath'].notnull()]]. *)
Definition drop_unmatched (meta : GeoDataFrame) : result GeoDataFrame :=
  filepath ← getitem meta "filepath";
  let mask := notnull <$> filepath in
  mret (mkFrame (select mask (gdf_index meta))
                (select mask <$> gdf_columns meta)
                (gdf_crs meta) (gdf_geo meta)).

Definition metacols : list string :=
  ["id"; "transect"; "datafile"; "epsg"; "random"; "geometry"; "filepath"].

(** [', '.join(repr(c) for c in cols)] *)
Fixpoint quoted (cols : list string) : string :=
  match cols with
  | [] => EmptyString
  | [c] => "'" ++ c ++ "'"
  | c :: rest => "'" ++ c ++ "', " ++ quoted rest
  end.

(** Line 50: [meta[metacols]]; columns that are not there are a [KeyError]
    that lists them (when some of [cols] are there). *)
Definition project (cols : list string) (meta : GeoDataFrame) : result GeoDataFrame :=
  match List.filter (λ c, bool_decide (gdf_columns meta !! c = None)) cols with
  | [] =>
      mret (mkFrame (gdf_index meta)
                    (filter (λ kv, kv.1 ∈ cols) (gdf_columns meta))
                    (gdf_crs meta) (gdf_geo meta))
  | missing => raise "KeyError" ("[" ++ quoted missing ++ "] not in index")
  end.

(** [meta.drop(columns=['geometry'])]: a plain table, which has no CRS. *)
Definition drop_geometry (meta : GeoDataFrame) : result GeoDataFrame :=
  match gdf_columns meta !! "geometry" with
  | None => raise "KeyError" "['geometry'] not found in axis"
  | Some _ =>
      mret (mkFrame (gdf_index meta) (delete "geometry" (gdf_columns meta)) None false)
  end.

Section Script.

(** The vector library's coordinate transformation, from one EPSG code to
    another. *)
Variable transform : Z → Z → geometry → geometry.

Definition reproject (src dst : Z) (v : pyval) : pyval :=
  match v with
  | PyGeom g => PyGeom (transform src dst g)
  | _ => v
  end.

(** [meta.to_crs(epsg=dst)] *)
Definition to_crs (dst : Z) (meta : GeoDataFrame) : result GeoDataFrame :=
  if gdf_geo meta then
    match gdf_crs meta with
    | None => raise "ValueError"
        "Cannot transform naive geometries.  Please set a crs on the object first."
    | Some src =>
        if (src =? dst)%Z then mret meta
        else mret (mkFrame (gdf_index meta)
                           (alter (fmap (reproject src dst)) "geometry" (gdf_columns meta))
                           (Some dst) true)
    end
  else raise "AttributeError" "'DataFrame' object has no attribute 'to_crs'".

(** What the script hands to the writers, each with its file name. *)
Record Artifacts := mkArtifacts {
  native_gpkg : string * GeoDataFrame;
  epsg4326_gpkg : string * GeoDataFrame;
  flat_csv : string * GeoDataFrame
}.

(** The script, from the globbed [lazfiles] and the frame read from
    [gpkg_fn] to the three writes (the console output is left out). *)
Definition script (gpkg_fn : string) (lazfiles : list string) (gdf : GeoDataFrame)
  : result Artifacts :=
  let basenames := lazfiles in
  let meta := gdf in
  let meta := ensure_geometry meta in
  meta ← ensure_crs meta;
  meta ← assign_filepath basenames meta;
  meta ← drop_unmatched meta;
  meta ← project metacols meta;
  let gpkg_fn1 := Py.replace gpkg_fn ".gpkg" "_locpaths.gpkg" in
  let gpkg_fn2 := Py.replace gpkg_fn ".gpkg" "_locpaths_epsg4326.gpkg" in
  let csv_fn := Py.replace gpkg_fn ".gpkg" "_locpaths.csv" in
  meta_4326 ← to_crs 4326 meta;
  df ← drop_geometry meta;
  mret (mkArtifacts (gpkg_fn1, meta) (gpkg_fn2, meta_4326) (csv_fn, df)).

End Script.

End Linker.

(** ** [wb_laz2tif.py]: the raster converter *)

Module Converter.

(** The stages the script puts in a PDAL pipeline, with their options. *)
Inductive Stage :=
  | Reader (filename : pyval)
  | Filter_expression (expression : string)
  | Filter_assign (assignment : string)
  | Filter_reprojection (out_srs : string)
  | Filter_smrf
  | Writer_gdal (filename : pyval) (gdalopts : string) (nodata : pyval)
                (output_type : string) (resolution window_size : pyval).

Definition Pipeline : Type := list Stage.

(** [pipeline |= stage] *)
Definition ior (pipeline : Pipeline) (stage : Stage) : Pipeline :=
  (pipeline ++ [stage])%list.

Infix "|=" := ior (at level 50, left associativity).

(** The table [pd.read_csv] returns: [df_len] rows labelled [0 .. df_len-1]. *)
Record DataFrame := mkDataFrame {
  df_len : nat;
  df_columns : gmap string (list pyval)
}.

(** [df[col][idx]] *)
Definition loc (df : DataFrame) (col : string) (idx : nat) : result pyval :=
  match df_columns df !! col with
  | None => raise "KeyError" ("'" ++ col ++ "'")
  | Some series =>
      match series !! idx with
      | Some v => mret v
      | None => raise "KeyError" (pretty idx)
      end
  end.

(** White space as [int()] strips it from ASCII text: the codes 9 to 13 and
    the blank. *)
Definition is_space (c : ascii) : bool :=
  let n := nat_of_ascii c in
  ((9 <=? n) && (n <=? 13) || (n =? 32))%nat.

Fixpoint lstrip (s : string) : string :=
  match s with
  | String c s' => if is_space c then lstrip s' else s
  | EmptyString => EmptyString
  end.

Definition strip (s : string) : string :=
  String.rev (lstrip (String.rev (lstrip s))).

(** Decimal digits, a single underscore allowed between two of them.  The
    digits read are the ASCII ones: [int()] also takes the other decimal
    digits and white space of Unicode, which are left out here. *)
Fixpoint parse_digits (acc : Z) (after_digit : bool) (s : string) : option Z :=
  match s with
  | EmptyString => if after_digit then Some acc else None
  | String c s' =>
      match Ascii.is_nat c with
      | Some d => parse_digits (10 * acc + Z.of_nat d) true s'
      | None =>
          if Ascii.eqb c "_" && after_digit then parse_digits acc false s'
          else None
      end
  end.

Definition parse_int (s : string) : option Z :=
  match strip s with
  | String "-" digits => Z.opp <$> parse_digits 0 false digits
  | String "+" digits => parse_digits 0 false digits
  | digits => parse_digits 0 false digits
  end.

(** [int(v)] on a table cell.  The message shows the text between single
    quotes, which is its [repr] when it has no quote, backslash or control
    character in it. *)
Definition py_int (v : pyval) : result Z :=
  match v with
  | PyInt z => mret z
  | PyStr s =>
      match parse_int s with
      | Some z => mret z
      | None => raise "ValueError" ("invalid literal for int() with base 10: '" ++ s ++ "'")
      end
  | PyNaN => raise "ValueError" "cannot convert float NaN to integer"
  | _ => raise "TypeError"
      ("int() argument must be a string, a bytes-like object or a real number, not '"
       ++ type_name v ++ "'")
  end.

Definition get_params (df : DataFrame) (idx : nat) : result (string * pyval * Z) :=
  transect ← loc df "transect" idx;
  let dname := py_str transect in
  laz_fn ← loc df "filepath" idx;
  epsg ← loc df "epsg" idx;
  epsg_code ← py_int epsg;
  mret (dname, laz_fn, epsg_code).

(** What the converter takes from outside: the file system and the clock
    behind [os] and [time], and the PDAL engine.  An existence test reads the
    state; creating directories and running a pipeline may change it, also
    when they raise.  A successful run returns the sizes of
    [pipeline.arrays].  [format_seconds t0 t1] stands for [f"{t1 - t0:.2f}"]
    and [format_minutes t0 t1] for [f"{(t1 - t0)/60}"]. *)
Class Host := {
  host_state : Type;
  clock : Type;
  os_path_exists : pyval → host_state → result bool;
  os_makedirs : string → host_state → result unit * host_state;
  pdal_execute : Pipeline → host_state → result (list nat) * host_state;
  time_time : host_state → clock;
  perf_counter : host_state → clock;
  format_seconds : clock → clock → string;
  format_minutes : clock → clock → string
}.

Section Monad.
Context `{Host}.

(** The state a run threads: the host, the lines printed so far, and the
    pipelines handed to [pipeline.execute()] so far. *)
Record World := mkWorld {
  host : host_state;
  stdout : list string;
  executed : list Pipeline
}.

Definition M (A : Type) : Type := World → result A * World.

Global Instance M_ret : MRet M := λ A x w, (inr x, w).
Global Instance M_bind : MBind M := λ A B f m w,
  match m w with
  | (inl e, w') => (inl e, w')
  | (inr x, w') => f x w'
  end.

Definition lift {A} (r : result A) : M A := λ w, (r, w).

(** [try: body except Exception as e: handler(e)] *)
Definition try_except {A} (body : M A) (handler : Exception → M A) : M A := λ w,
  match body w with
  | (inl e, w') => handler e w'
  | (inr x, w') => (inr x, w')
  end.

Definition print (line : string) : M unit := λ w,
  (inr (), mkWorld (host w) (stdout w ++ [line])%list (executed w)).

Definition path_exists (p : pyval) : M bool := λ w,
  (os_path_exists p (host w), w).

Definition makedirs (p : string) : M unit := λ w,
  let '(r, h) := os_makedirs p (host w) in
  (r, mkWorld h (stdout w) (executed w)).

Definition execute (pipeline : Pipeline) : M (list nat) := λ w,
  let '(r, h) := pdal_execute pipeline (host w) in
  (r, mkWorld h (stdout w) (executed w ++ [pipeline])%list).

Definition now : M clock := λ w, (inr (time_time (host w)), w).

Definition perf_now : M clock := λ w, (inr (perf_counter (host w)), w).

End Monad.

Section Script.
Context `{Host}.

(** The suite of the [try] statement of [laz_to_tif] (lines 28-76); the
    early [return] of line 31 is the first branch. *)
Definition laz_to_tif_suite (laz_fn tif_fn epsg_code res window_size nodata : pyval)
    (dtm reclassify : bool) : M unit :=
    (skip ← path_exists tif_fn;
     if skip : bool then
       print ("Output file '" ++ py_str tif_fn ++ "' already exists. Skipping processing.")
     else
       start_time ← now;
       let pipeline : Pipeline := [Reader laz_fn] in
       '(tif_fn, pipeline) ←
         (if reclassify then
            tif_fn ← lift (method_replace tif_fn ".tif" "_yrclf.tif");
            let pipeline := pipeline |= Filter_expression "Classification != 7" in
            let pipeline := pipeline |= Filter_assign "Classification[:]=0" in
            let pipeline := pipeline |= Filter_reprojection ("EPSG:" ++ py_str epsg_code) in
            let pipeline := pipeline |= Filter_smrf in
            mret (tif_fn, pipeline)
          else
            tif_fn ← lift (method_replace tif_fn ".tif" "_nrclf.tif");
            let pipeline := pipeline |= Filter_reprojection ("EPSG:" ++ py_str epsg_code) in
            mret (tif_fn, pipeline));
       pipeline ←
         (if dtm then mret (pipeline |= Filter_expression "Classification == 2")
          else
            print "Generating DSM (Digital Surface Model) by including all surface features such as buildings and vegetation.";;
            mret pipeline);
       let pipeline :=
         pipeline |= Writer_gdal tif_fn "tiled=yes,compress=deflate" nodata "idw"
                                 res window_size in
       arrays ← execute pipeline;
       end_time ← now;
       print ("Processing completed for " ++ py_str tif_fn ++ " in "
              ++ format_seconds start_time end_time ++ " seconds.");;
       let point_count := match arrays with a :: _ => a | [] => 0 end in
       print ("Processed point cloud contains " ++ pretty point_count ++ " points");;
       print ("Output saved to " ++ py_str tif_fn)).

(** [laz_to_tif]: the suite, and the handler of lines 78-79. *)
Definition laz_to_tif (laz_fn tif_fn epsg_code res window_size nodata : pyval)
    (dtm reclassify : bool) : M unit :=
  try_except
    (laz_to_tif_suite laz_fn tif_fn epsg_code res window_size nodata dtm reclassify)
    (λ e, print ("An error occurred during processing for " ++ py_str laz_fn
                 ++ ": " ++ exc_str e)).

Definition process_file (idx : nat) (df : DataFrame) (res window_size nodata : pyval)
    (vname las2tif_dpath : string) (dtm reclassify : bool) : M unit :=
  '(dname, laz_fn, epsg_code) ← lift (get_params df idx);
  let outdpath := Py.join las2tif_dpath dname in
  b ← lift (os_path_basename laz_fn);
  let bname := Py.replace b ".laz" EmptyString in
  makedirs outdpath;;
  let tif_fn := Py.join outdpath
    (bname ++ "-" ++ vname ++ py_str res ++ "m_" ++ py_str window_size ++ ".tif") in
  laz_to_tif laz_fn (PyStr tif_fn) (PyInt epsg_code) res window_size nodata dtm reclassify.

(** The worker pool, one job after the other in the order they complete:
    a job's exception is kept in its future, next to the job's index. *)
Fixpoint run_pool (job : nat → M unit) (completion : list nat)
  : M (list (nat * result unit)) := λ w,
  match completion with
  | [] => (inr [], w)
  | idx :: later =>
      let '(r, w1) := job idx w in
      match run_pool job later w1 with
      | (inr futures, w2) => (inr ((idx, r) :: futures), w2)
      | (inl e, w2) => (inl e, w2)
      end
  end.

(** The loop over [as_completed(futures)]. *)
Fixpoint collect (futures : list (nat * result unit)) : M unit :=
  match futures with
  | [] => mret ()
  | (_, future) :: later =>
      try_except (lift future)
                 (λ e, print ("Error during parallel processing: " ++ exc_str e));;
      collect later
  end.

(** The driver, on the table read from [meta_csv_fn].  One job is submitted
    per index of [range(len(df))]; [completion] lists these indices in the
    order their jobs complete, which the pool does not fix. *)
Definition main (df : DataFrame) (las2tif_dpath : string) (completion : list nat)
  : M unit :=
  ti ← perf_now;
  let res := PyInt 30 in
  let window_size := PyInt 10 in
  let vname := "DTM" in
  let nodata := PyInt (-9999) in
  futures ← run_pool (λ idx, process_file idx df res window_size nodata vname
                                          las2tif_dpath true true) completion;
  collect futures;;
  tf ← perf_now;
  print ("RUN.TIME " ++ format_minutes ti tf ++ " min(s)").

End Script.

End Converter.

(** ** A small host, for running the converter on concrete inputs

    The file system is the list of the paths that exist.  Directories under
    [/proc] cannot be created; a pipeline whose reader names an existing file
    writes the raster its writer names and yields one array of 42 points. *)

Module Demo.
Import Converter.

Definition exists_in (fs : list string) (p : string) : bool :=
  existsb (String.eqb p) fs.

Definition demo_exists (p : pyval) (fs : list string) : result bool :=
  match p with
  | PyStr s => mret (exists_in fs s)
  | PyInt _ => mret false
  | _ => raise "TypeError"
      ("stat: path should be string, bytes, os.PathLike or integer, not " ++ type_name p)
  end.

Definition demo_makedirs (p : string) (fs : list string) : result unit * list string :=
  if Py.startswith p "/proc"
  then (raise "PermissionError" ("[Errno 13] Permission denied: '" ++ p ++ "'"), fs)
  else (mret (), if exists_in fs p then fs else (fs ++ [p])%list).

Definition demo_execute (pipeline : Pipeline) (fs : list string)
  : result (list nat) * list string :=
  match pipeline, last pipeline with
  | Reader (PyStr laz) :: _, Some (Writer_gdal (PyStr tif) _ _ _ _ _) =>
      if exists_in fs laz
      then (mret [42], if exists_in fs tif then fs else (fs ++ [tif])%list)
      else (raise "RuntimeError" ("readers.las: Unable to open stream for '" ++ laz
                                  ++ "' with error 'No such file or directory'"), fs)
  | _, _ => (raise "RuntimeError" "Couldn't create pipeline", fs)
  end.

Definition demo_host : Host := {|
  host_state := list string;
  clock := unit;
  os_path_exists := demo_exists;
  os_makedirs := demo_makedirs;
  pdal_execute := demo_execute;
  time_time := λ _, ();
  perf_counter := λ _, ();
  format_seconds := λ _ _, "0.00";
  format_minutes := λ _ _, "0.0"
|}.

Definition start (fs : list string) : @World demo_host :=
  @mkWorld demo_host fs [] [].

(** A vector library that shifts nothing. *)
Definition demo_transform (src dst : Z) (g : geometry) : geometry := g.

End Demo.

(** ** Concrete inputs *)

Module Runs.
Import Converter Demo.

Definition laz : string := "/data/T1/a.laz".

(** A metadata table from its rows: transect, filepath, epsg. *)
Definition table (rows : list (pyval * pyval * pyval)) : DataFrame :=
  mkDataFrame (List.length rows)
    (<["transect" := rows.*1.*1]> (<["filepath" := rows.*1.*2]>
       (<["epsg" := rows.*2]> ∅))).

Definition good_row : pyval * pyval * pyval :=
  (PyStr "T1", PyStr laz, PyStr "32633").

Definition bad_row : pyval * pyval * pyval :=
  (PyStr "T1", PyStr "/data/T1/b.laz", PyStr "abc").

(** A row whose point cloud has [.tif] in its name. *)
Definition tif_row : pyval * pyval * pyval :=
  (PyStr "T1", PyStr "/data/T1/a.tif.laz", PyInt 32633).

(** A row whose output directory cannot be created. *)
Definition proc_row : pyval * pyval * pyval :=
  (PyStr "/proc/T1", PyStr laz, PyInt 32633).

(** The call [process_file] makes for [good_row]. *)
Definition convert : @M demo_host unit :=
  laz_to_tif (PyStr laz) (PyStr "/out/T1/a-DTM30m_10.tif") (PyInt 32633) (PyInt 30)
             (PyInt 10) (PyInt (-9999)) true true.

(** The driver on a table, jobs completing in submission order. *)
Definition drive (rows : list (pyval * pyval * pyval)) : result unit * @World demo_host :=
  main (table rows) "/out" (seq 0 (List.length rows)) (start [laz]).

(** The scenario of the specification: two files on disk, two records. *)
Definition lazfiles : list string :=
  ["/lidar/g1/A_dn_001.laz"; "/lidar/g2/B_dn_002.laz"].

Definition datafiles : list string :=
  ["A_dn_001_extra.ext"; "C_dn_999_extra.ext"].

(** What [read_file] gives for a layer without geometry: a plain DataFrame. *)
Definition bare_gdf : Linker.GeoDataFrame :=
  Linker.mkFrame [0; 1]
    (<["id" := [PyInt 1; PyInt 2]]>
       (<["transect" := [PyStr "T1"; PyStr "T2"]]>
          (<["datafile" := PyStr <$> datafiles]>
             (<["epsg" := [PyInt 32633; PyInt 32633]]>
                (<["random" := [PyInt 0; PyInt 1]]> ∅)))))
    None false.

(** The same records with point geometries in EPSG:32633. *)
Definition geo_gdf : Linker.GeoDataFrame :=
  Linker.mkFrame [0; 1]
    (<["geometry" := [PyGeom (Point 500000 0); PyGeom (Point 500100 0)]]>
       (Linker.gdf_columns bare_gdf))
    (Some 32633%Z) true.

(** The same records with null geometries and no CRS. *)
Definition null_gdf : Linker.GeoDataFrame :=
  Linker.mkFrame [0; 1]
    (<["geometry" := [PyNone; PyNone]]> (Linker.gdf_columns bare_gdf))
    None true.

End Runs.

(** ** Further concrete inputs *)

Module Cases.
Import Converter Demo Runs.

(** [geo_gdf] without its [datafile] column. *)
Definition no_datafile_gdf : Linker.GeoDataFrame :=
  Linker.mkFrame [0; 1] (delete "datafile" (Linker.gdf_columns geo_gdf))
                 (Some 32633%Z) true.

(** [geo_gdf] without its [id] column. *)
Definition no_id_gdf : Linker.GeoDataFrame :=
  Linker.mkFrame [0; 1] (delete "id" (Linker.gdf_columns geo_gdf)) (Some 32633%Z) true.

(** [geo_gdf] with an empty [datafile] cell on its second row. *)
Definition nan_gdf : Linker.GeoDataFrame :=
  Linker.mkFrame [0; 1]
    (<["datafile" := [PyStr "A_dn_001_extra.ext"; PyNaN]]> (Linker.gdf_columns geo_gdf))
    (Some 32633%Z) true.

(** A row whose [filepath] cell is empty. *)
Definition nan_row : pyval * pyval * pyval := (PyStr "T1", PyNaN, PyInt 32633).

(** The raster names of [good_row]. *)
Definition tif : string := "/out/T1/a-DTM30m_10.tif".
Definition tif_yrclf : string := "/out/T1/a-DTM30m_10_yrclf.tif".

End Cases.

(** * Specification vocabulary *)

(** [s] begins with [pre]. *)
Definition is_prefix (pre s : string) : Prop := ∃ rest, s = pre ++ rest.

(** [base] is what stands in [s] before the first [sep]: [sep] follows it
    and starts nowhere earlier; all of [s] when [sep] is nowhere in it. *)
Definition before_first (sep s base : string) : Prop :=
  (∃ rest, s = base ++ sep ++ rest ∧
     ∀ pre suf, s = pre ++ sep ++ suf → (String.length base ≤ String.length pre)%nat)
  ∨ (base = s ∧ ∀ pre suf, s ≠ pre ++ sep ++ suf).

(** [old] stands in [s] at the end and nowhere else. *)
Definition only_at_end (old s : string) : Prop :=
  ∀ pre suf, s = pre ++ old ++ suf → suf = EmptyString.

(** [p] is the first of [files] whose basename begins with [base]. *)
Definition first_starting_with (base : string) (files : list string) (p : string) : Prop :=
  ∃ before after, files = (before ++ p :: after)%list ∧
    is_prefix base (Py.basename p) ∧
    Forall (λ q, ¬ is_prefix base (Py.basename q)) before.

Definition none_starting_with (base : string) (files : list string) : Prop :=
  Forall (λ q, ¬ is_prefix base (Py.basename q)) files.

(** What the specification asks of the path resolved for [datafile]. *)
Definition resolved (basenames : list string) (datafile : string) (path : pyval) : Prop :=
  ∃ base, before_first "_dn_" (Py.basename datafile) base ∧
    ((∃ p, path = PyStr p ∧ first_starting_with base basenames p) ∨
     (path = PyNone ∧ none_starting_with base basenames)).

(** What [find_closest_match_datafile] computes on a string. *)
Definition matcher (basenames : list string) (datafile : string) : pyval :=
  Linker.first_match (Py.split_head (Py.basename datafile) "_dn_") basenames.

(** What [read_file] returns for a layer with geometry: a GeoDataFrame,
    with its [geometry] column. *)
Definition is_geodataframe (gdf : Linker.GeoDataFrame) : Prop :=
  Linker.gdf_geo gdf = true ∧ is_Some (Linker.gdf_columns gdf !! "geometry").

(** The frame the script can link: a GeoDataFrame with a [datafile] column
    of strings, one per row, and the other columns the projection keeps. *)
Definition ready (gdf : Linker.GeoDataFrame) (datafiles : list string) : Prop :=
  is_geodataframe gdf ∧
  Linker.gdf_columns gdf !! "datafile" = Some (PyStr <$> datafiles) ∧
  List.length datafiles = Linker.len gdf ∧
  ∀ col, col ∈ ["id"; "transect"; "epsg"; "random"] →
         is_Some (Linker.gdf_columns gdf !! col).

(** The records the matcher resolves to null. *)
Definition unmatched (basenames : list string) (datafiles : list string) : list string :=
  List.filter (λ d, isnull (matcher basenames d)) datafiles.

(** The filtered, projected table of a ready frame. *)
Definition linked (lazfiles : list string) (gdf : Linker.GeoDataFrame)
    (datafiles : list string) : Linker.GeoDataFrame :=
  let repaired := Linker.ensure_geometry gdf in
  let paths := matcher lazfiles <$> datafiles in
  let mask := notnull <$> paths in
  Linker.mkFrame
    (Linker.select mask (Linker.gdf_index gdf))
    (filter (λ kv, kv.1 ∈ Linker.metacols)
            (Linker.select mask <$> <["filepath" := paths]> (Linker.gdf_columns repaired)))
    (Some (default 4326%Z (Linker.gdf_crs gdf)))
    true.

Section ConverterVocabulary.
Import Converter.
Context `{Host}.

(** The chain the script builds: the reader, the filters in order, the
    writer. *)
Definition chain (laz_fn : pyval) (out : string) (epsg_code res window_size nodata : pyval)
    (dtm reclassify : bool) : Pipeline :=
  ([Reader laz_fn]
   ++ (if reclassify
       then [Filter_expression "Classification != 7";
             Filter_assign "Classification[:]=0";
             Filter_reprojection ("EPSG:" ++ py_str epsg_code);
             Filter_smrf]
       else [Filter_reprojection ("EPSG:" ++ py_str epsg_code)])
   ++ (if dtm then [Filter_expression "Classification == 2"] else [])
   ++ [Writer_gdal (PyStr out) "tiled=yes,compress=deflate" nodata "idw"
                   res window_size])%list.

(** The file the writer is given: [tif_fn] with the variant's suffix. *)
Definition suffixed (tif_fn : string) (reclassify : bool) : string :=
  Py.replace tif_fn ".tif" (if reclassify then "_yrclf.tif" else "_nrclf.tif").

(** The raster path [process_file] passes on. *)
Definition raster_path (las2tif_dpath dname b vname : string) (res window_size : pyval)
  : string :=
  Py.join (Py.join las2tif_dpath dname)
    (Py.replace b ".laz" EmptyString ++ "-" ++ vname ++ py_str res ++ "m_"
       ++ py_str window_size ++ ".tif").

Definition logged (w : World) (lines : list string) : World :=
  mkWorld (host w) (stdout w ++ lines)%list (executed w).

Definition with_host (w : World) (h : host_state) : World :=
  mkWorld h (stdout w) (executed w).

Definition skip_line (tif_fn : pyval) : string :=
  "Output file '" ++ py_str tif_fn ++ "' already exists. Skipping processing.".

Definition error_line (laz_fn : pyval) (e : Exception) : string :=
  "An error occurred during processing for " ++ py_str laz_fn ++ ": " ++ exc_str e.

Definition dsm_lines (dtm : bool) : list string :=
  if dtm then []
  else ["Generating DSM (Digital Surface Model) by including all surface features such as buildings and vegetation."].

Definition done_lines (out elapsed : string) (arrays : list nat) : list string :=
  ["Processing completed for " ++ out ++ " in " ++ elapsed ++ " seconds.";
   "Processed point cloud contains "
     ++ pretty (match arrays with a :: _ => a | [] => 0 end) ++ " points";
   "Output saved to " ++ out].

(** The job the driver submits for row [idx]. *)
Definition job (df : DataFrame) (las2tif_dpath : string) (idx : nat) : M unit :=
  process_file idx df (PyInt 30) (PyInt 10) (PyInt (-9999)) "DTM" las2tif_dpath true true.

(** The exceptions kept in the futures, in completion order. *)
Definition errors (futures : list (nat * result unit)) : list Exception :=
  omap (λ f, match f.2 with inl e => Some e | inr _ => None end) futures.

(** The jobs whose future holds an exception. *)
Definition failed (futures : list (nat * result unit)) : list nat :=
  omap (λ f, match f.2 with inl _ => Some f.1 | inr _ => None end) futures.

Definition dispatch_line (e : Exception) : string :=
  "Error during parallel processing: " ++ exc_str e.

End ConverterVocabulary.

(** The rows line 47 keeps: those whose datafile the matcher resolves. *)
Definition keep_mask (lazfiles datafiles : list string) : list bool :=
  notnull <$> (matcher lazfiles <$> datafiles).

(** [v] is a [str]. *)
Definition is_str (v : pyval) : Prop := ∃ s, v = PyStr s.

(** [s] is made of decimal digits. *)
Fixpoint digits_only (s : string) : Prop :=
  match s with
  | EmptyString => True
  | String c s' => is_Some (Ascii.is_nat c) ∧ digits_only s'
  end.

(** [s] has no white space. *)
Fixpoint spaceless (s : string) : Prop :=
  match s with
  | EmptyString => True
  | String c s' => Converter.is_space c = false ∧ spaceless s'
  end.

Section GrowthVocabulary.
Import Converter.
Context `{Host}.

(** What one call of the converter for [laz_fn] may hand to the engine:
    nothing, or one pipeline, whose first stage reads [laz_fn]. *)
Definition reads_once (laz_fn : pyval) (pipelines : list Pipeline) : Prop :=
  pipelines = [] ∨ ∃ stages, pipelines = [Reader laz_fn :: stages].

(** What the job of row [idx] may hand to the engine: nothing, or one
    pipeline, which reads the point cloud of that row. *)
Definition job_pipelines (df : DataFrame) (idx : nat) (pipelines : list Pipeline) : Prop :=
  pipelines = [] ∨
  ∃ laz_fn stages, loc df "filepath" idx = inr laz_fn ∧
                   pipelines = [Reader laz_fn :: stages].

(** From [w] to [w'] the log was only appended to, and the engine was handed
    [pipelines], in this order. *)
Definition grows (pipelines : list Pipeline) (w w' : World) : Prop :=
  executed w' = (executed w ++ pipelines)%list ∧
  ∃ lines, stdout w' = (stdout w ++ lines)%list.

End GrowthVocabulary.

(** * Strings and paths *)

Section Strings.

Lemma append_cons c s t : String c s ++ t = String c (s ++ t).
Proof. reflexivity. Qed.

Lemma append_empty_l s : EmptyString ++ s = s.
Proof. reflexivity. Qed.

Lemma append_nil_r s : s ++ EmptyString = s.
Proof. induction s as [|c s IH]; [done|]. by rewrite append_cons, IH. Qed.

Lemma append_assoc (s t u : string) : (s ++ t) ++ u = s ++ t ++ u.
Proof. induction s as [|c s IH]; [done|]. by rewrite !append_cons, IH. Qed.

Lemma append_length s t : String.length (s ++ t) = String.length s + String.length t.
Proof. induction s as [|c s IH]; [done|]. rewrite append_cons. simpl. by rewrite IH. Qed.

Lemma startswith_spec s pre : Py.startswith s pre = true ↔ is_prefix pre s.
Proof.
  revert s. induction pre as [|a pre IH]; intros s; simpl.
  - split; [intros _; by exists s | done].
  - destruct s as [|b s].
    + split; [done | intros [rest Hr]; discriminate Hr].
    + destruct (Ascii.eqb_spec a b) as [->|Hne].
      * rewrite IH. split; intros [rest Hr]; exists rest.
        -- rewrite append_cons. by f_equal.
        -- rewrite append_cons in Hr. by injection Hr.
      * split; [done | intros [rest Hr]]. rewrite append_cons in Hr. congruence.
Qed.

Lemma startswith_false s pre : Py.startswith s pre = false ↔ ¬ is_prefix pre s.
Proof.
  rewrite <- startswith_spec.
  destruct (Py.startswith s pre); split; congruence.
Qed.

Lemma startswith_app_nonempty (b x : string) :
  b ≠ EmptyString → Py.startswith (b ++ x) "/" = Py.startswith b "/".
Proof. destruct b as [|c b]; [done|]. intros _. rewrite append_cons. reflexivity. Qed.

(** [split(sep)[0]] is the text before the first separator. *)
Lemma split_head_spec sep s :
  sep ≠ EmptyString → before_first sep s (Py.split_head s sep).
Proof.
  intros Hsep. induction s as [|c s IH].
  - simpl. destruct (Py.startswith EmptyString sep) eqn:E.
    + apply startswith_spec in E as [rest Hr]. destruct sep; [done | discriminate Hr].
    + right. split; [done|]. intros pre suf Hp.
      apply startswith_false in E. apply E. exists suf.
      destruct pre; [exact Hp | discriminate Hp].
  - simpl. destruct (Py.startswith (String c s) sep) eqn:E.
    + left. apply startswith_spec in E as [rest Hr]. exists rest. split; [done|].
      intros; simpl; lia.
    + apply startswith_false in E.
      assert (Hhead : ∀ pre suf, String c s = pre ++ sep ++ suf →
                ∃ pre', pre = String c pre' ∧ s = pre' ++ sep ++ suf).
      { intros [|c' pre'] suf Hp.
        - exfalso. apply E. by exists suf.
        - rewrite append_cons in Hp. injection Hp as -> Hp. by exists pre'. }
      destruct IH as [(rest & Hs & Hmin) | [Hbase Hnone]].
      * left. exists rest. split; [by rewrite append_cons, <- Hs|].
        intros pre suf Hp. destruct (Hhead _ _ Hp) as (pre' & -> & Hp').
        simpl. apply Hmin in Hp'. lia.
      * right. split; [by rewrite Hbase|].
        intros pre suf Hp. destruct (Hhead _ _ Hp) as (pre' & -> & Hp').
        by apply (Hnone pre' suf).
Qed.

Lemma endswith_cons c s suf : Py.endswith s suf = true → Py.endswith (String c s) suf = true.
Proof.
  intros Hs. cbn [Py.endswith]. rewrite Hs.
  by destruct (String.eqb (String c s) suf).
Qed.

(** [os.path.basename] splits a path after its last slash. *)
Lemma basename_spec p :
  ∃ dir, p = dir ++ Py.basename p ∧
         Py.has_slash (Py.basename p) = false ∧
         (dir = EmptyString ∨ Py.endswith dir "/" = true).
Proof.
  induction p as [|c p (dir & Hp & Hno & Hdir)].
  - exists EmptyString. split; [done|]. split; [done | by left].
  - cbn [Py.basename]. destruct (Py.has_slash p) eqn:Hs.
    + exists (String c dir). rewrite append_cons, <- Hp. split; [done|]. split; [done|].
      right. apply endswith_cons. destruct Hdir as [-> | Hdir]; [|done].
      rewrite append_empty_l in Hp. congruence.
    + destruct (Ascii.eqb c "/") eqn:Hc.
      * apply Ascii.eqb_eq in Hc as ->.
        exists "/". split; [done|]. split; [done | by right].
      * exists EmptyString. split; [done|]. split; [|by left].
        unfold Py.has_slash in *. cbn [Py.contains Py.startswith].
        rewrite Ascii.eqb_sym, Hc. exact Hs.
Qed.

Lemma replace_go_skip old new k s :
  (String.length s ≤ k)%nat → Py.replace_go old new k s = EmptyString.
Proof.
  revert k. induction s as [|c s IH]; intros k Hk; [done|].
  simpl in *. destruct k as [|k]; [lia|]. apply IH. lia.
Qed.

(** Replacing [old], when it stands at the end only, swaps the ending. *)
Lemma replace_at_end old new p :
  old ≠ EmptyString →
  only_at_end old (p ++ old) →
  Py.replace (p ++ old) old new = p ++ new.
Proof.
  intros Hold. unfold Py.replace. induction p as [|c p IH]; intros Honly.
  - rewrite !append_empty_l. destruct old as [|a old]; [done|].
    cbn [Py.replace_go].
    assert (Py.startswith (String a old) (String a old) = true) as ->.
    { apply startswith_spec. exists EmptyString. by rewrite append_nil_r. }
    rewrite replace_go_skip by (simpl; lia). apply append_nil_r.
  - rewrite !append_cons. cbn [Py.replace_go].
    assert (Py.startswith (String c (p ++ old)) old = false) as ->.
    { apply startswith_false. intros [rest Hr].
      specialize (Honly EmptyString rest). rewrite append_empty_l in Honly.
      rewrite append_cons in Honly. specialize (Honly Hr). subst rest.
      rewrite append_nil_r in Hr.
      apply (f_equal String.length) in Hr. simpl in Hr.
      rewrite append_length in Hr. lia. }
    f_equal. apply IH. intros pre suf Hp.
    apply (Honly (String c pre) suf). rewrite !append_cons. by f_equal.
Qed.

Lemma join_app (a b x : string) :
  b ≠ EmptyString → Py.join a (b ++ x) = Py.join a b ++ x.
Proof.
  intros Hb. unfold Py.join. rewrite startswith_app_nonempty by done.
  destruct (Py.startswith b "/"); [done|].
  destruct (String.eqb a EmptyString || Py.endswith a "/"); by rewrite !append_assoc.
Qed.

End Strings.

(** * The metadata linker *)

Section Matching.
Import Linker.

Lemma first_match_spec base files :
  (∃ p, first_match base files = PyStr p ∧ first_starting_with base files p) ∨
  (first_match base files = PyNone ∧ none_starting_with base files).
Proof.
  induction files as [|q files IH]; simpl.
  - right. split; [done | constructor].
  - destruct (Py.startswith (Py.basename q) base) eqn:E.
    + left. exists q. split; [done|]. exists [], files.
      split; [done|]. split; [by apply startswith_spec | constructor].
    + apply startswith_false in E.
      destruct IH as [(p & Hp & before & after & -> & Hpre & Hbefore) | [Hn Hall]].
      * left. exists p. split; [done|]. exists (q :: before), after.
        split; [done|]. split; [done | by constructor].
      * right. split; [done | by constructor].
Qed.

(** On a string the matcher returns, and returns [matcher]. *)
Lemma find_closest_match_datafile_str datafile basenames :
  find_closest_match_datafile (PyStr datafile) basenames
  = inr (matcher basenames datafile).
Proof. reflexivity. Qed.

(** On anything else it raises: the script has no handler for it. *)
Lemma find_closest_match_datafile_null basenames :
  find_closest_match_datafile PyNaN basenames
  = raise "TypeError" "expected str, bytes or os.PathLike object, not float".
Proof. reflexivity. Qed.

Lemma matcher_resolved datafile basenames :
  resolved basenames datafile (matcher basenames datafile).
Proof.
  exists (Py.split_head (Py.basename datafile) "_dn_").
  split; [by apply split_head_spec|].
  destruct (first_match_spec (Py.split_head (Py.basename datafile) "_dn_") basenames)
    as [(p & Hp & Hfirst) | [Hn Hall]]; [left; eauto | right; eauto].
Qed.

Lemma series_apply_matcher basenames datafiles :
  series_apply (λ x, find_closest_match_datafile x basenames) (PyStr <$> datafiles)
  = inr (matcher basenames <$> datafiles).
Proof.
  induction datafiles as [|d ds IH]; [done|].
  rewrite !fmap_cons. simpl. rewrite IH. reflexivity.
Qed.

Lemma assign_filepath_str basenames meta datafiles :
  gdf_columns meta !! "datafile" = Some (PyStr <$> datafiles) →
  assign_filepath basenames meta
  = inr (setitem meta "filepath" (matcher basenames <$> datafiles)).
Proof.
  intros Hd. unfold assign_filepath, getitem. rewrite Hd. simpl.
  rewrite series_apply_matcher. reflexivity.
Qed.

(** C2: after line 43 every record's [filepath] is the full path of the first
    discovered file, in enumeration order, whose basename starts with the
    record's datafile base (the part of the datafile's basename before the
    first [_dn_]), and null when no discovered file's basename starts with
    it. *)
Theorem filepath_is_first_prefix_match basenames meta datafiles :
  gdf_columns meta !! "datafile" = Some (PyStr <$> datafiles) →
  ∃ meta' paths,
    assign_filepath basenames meta = inr meta' ∧
    gdf_columns meta' !! "filepath" = Some paths ∧
    Forall2 (resolved basenames) datafiles paths.
Proof.
  intros Hd. eexists _, _. split; [by apply assign_filepath_str|].
  split; [apply lookup_insert_eq|].
  apply Forall2_fmap_r, Forall_Forall2_diag, Forall_forall.
  intros d _. apply matcher_resolved.
Qed.

End Matching.

Section Frames.
Import Linker.

Lemma select_notnull (paths : list pyval) :
  Forall (λ v, isnull v = false) (select (notnull <$> paths) paths).
Proof.
  induction paths as [|v paths IH]; [constructor|].
  rewrite fmap_cons. simpl. unfold notnull at 1.
  destruct (isnull v) eqn:E; simpl; [done | by constructor].
Qed.

Lemma length_select_notnull {A D} (f : D → pyval) (ds : list D) (l : list A) :
  List.length l = List.length ds →
  List.length (select (notnull <$> (f <$> ds)) l)
  + List.length (List.filter (λ d, isnull (f d)) ds) = List.length l.
Proof.
  revert l. induction ds as [|d ds IH]; intros [|x l] Hl; try done.
  rewrite !fmap_cons. simpl. unfold notnull at 1.
  injection Hl as Hl. specialize (IH l Hl).
  destruct (isnull (f d)); simpl; lia.
Qed.

Lemma length_select_same {A B} (mask : list bool) (l1 : list A) (l2 : list B) :
  List.length l1 = List.length l2 →
  List.length (select mask l1) = List.length (select mask l2).
Proof.
  revert l1 l2. induction mask as [|b mask IH]; intros [|x l1] [|y l2] Hl; try done.
  injection Hl as Hl. simpl. destruct b; simpl; auto.
Qed.

Lemma ensure_geometry_index meta : gdf_index (ensure_geometry meta) = gdf_index meta.
Proof. unfold ensure_geometry. by destruct (lacks_geometry meta). Qed.

Lemma ensure_geometry_crs meta : gdf_crs (ensure_geometry meta) = gdf_crs meta.
Proof. unfold ensure_geometry. by destruct (lacks_geometry meta). Qed.

Lemma ensure_geometry_other meta col :
  col ≠ "geometry" →
  gdf_columns (ensure_geometry meta) !! col = gdf_columns meta !! col.
Proof.
  intros Hne. unfold ensure_geometry. destruct (lacks_geometry meta); [|done].
  simpl. by rewrite lookup_insert_ne.
Qed.

Lemma ensure_geometry_present meta :
  is_Some (gdf_columns (ensure_geometry meta) !! "geometry").
Proof.
  unfold ensure_geometry. destruct (lacks_geometry meta) eqn:E.
  - simpl. rewrite lookup_insert_eq. eauto.
  - unfold lacks_geometry in E. destruct (gdf_columns meta !! "geometry"); [eauto | done].
Qed.

Lemma ensure_geometry_geo meta : gdf_geo (ensure_geometry meta) = gdf_geo meta.
Proof. unfold ensure_geometry. by destruct (lacks_geometry meta). Qed.

(** On a GeoDataFrame the CRS check goes through, and leaves a CRS. *)
Lemma ensure_crs_geo meta :
  gdf_geo meta = true →
  ensure_crs meta
  = inr (mkFrame (gdf_index meta) (gdf_columns meta)
                 (Some (default 4326%Z (gdf_crs meta))) true).
Proof.
  intros Hgeo. unfold ensure_crs. rewrite Hgeo.
  destruct meta as [index columns [c|] geo]; simpl in *; by subst.
Qed.

(** On a plain DataFrame it raises. *)
Lemma ensure_crs_plain meta :
  gdf_geo meta = false →
  ensure_crs meta = raise "AttributeError" "'DataFrame' object has no attribute 'crs'".
Proof. intros Hgeo. unfold ensure_crs. by rewrite Hgeo. Qed.

(** Lines 33-40 on a GeoDataFrame. *)
Lemma repaired_geo meta :
  gdf_geo meta = true →
  ensure_crs (ensure_geometry meta)
  = inr (mkFrame (gdf_index meta) (gdf_columns (ensure_geometry meta))
                 (Some (default 4326%Z (gdf_crs meta))) true).
Proof.
  intros Hgeo. rewrite ensure_crs_geo by by rewrite ensure_geometry_geo.
  by rewrite ensure_geometry_index, ensure_geometry_crs.
Qed.

(** Lines 33-40 on a plain DataFrame. *)
Lemma repaired_plain meta :
  gdf_geo meta = false →
  ensure_crs (ensure_geometry meta)
  = raise "AttributeError" "'DataFrame' object has no attribute 'crs'".
Proof. intros Hgeo. apply ensure_crs_plain. by rewrite ensure_geometry_geo. Qed.

Lemma project_present (cols : list string) meta :
  (∀ c, c ∈ cols → is_Some (gdf_columns meta !! c)) →
  project cols meta
  = inr (mkFrame (gdf_index meta) (filter (λ kv, kv.1 ∈ cols) (gdf_columns meta))
                 (gdf_crs meta) (gdf_geo meta)).
Proof.
  intros Hall. unfold project.
  assert (List.filter (λ c, bool_decide (gdf_columns meta !! c = None)) cols = []) as ->;
    [|done].
  assert (Hsub : ∀ c, c ∈ cols → c ∈ cols) by done. revert Hsub.
  generalize cols at 1 3. intros l. induction l as [|c l IH]; intros Hsub; [done|].
  simpl. destruct (Hall c) as [v Hv]; [apply Hsub; left|].
  rewrite bool_decide_eq_false_2 by congruence.
  apply IH. intros c' Hc'. apply Hsub. by right.
Qed.

Lemma lookup_project (cols : list string) (m : gmap string (list pyval)) col :
  col ∈ cols → filter (λ kv, kv.1 ∈ cols) m !! col = m !! col.
Proof.
  intros Hin. destruct (m !! col) as [v|] eqn:E.
  - by apply map_lookup_filter_Some.
  - apply map_lookup_filter_None. left. done.
Qed.

Lemma metacols_elem col :
  col ∈ metacols ↔
  col = "filepath" ∨ col = "geometry" ∨ col = "datafile"
  ∨ col ∈ ["id"; "transect"; "epsg"; "random"].
Proof. unfold metacols. rewrite !elem_of_cons, elem_of_nil. tauto. Qed.

End Frames.

Section Artifacts.
Import Linker.
Variable transform : Z → Z → geometry → geometry.

Lemma linked_lookup lazfiles gdf datafiles col :
  col ∈ metacols →
  gdf_columns (linked lazfiles gdf datafiles) !! col
  = select (notnull <$> (matcher lazfiles <$> datafiles))
      <$> (<["filepath" := matcher lazfiles <$> datafiles]>
             (gdf_columns (ensure_geometry gdf)) !! col).
Proof.
  intros Hin. unfold linked. simpl.
  rewrite lookup_project by done.
  by rewrite lookup_fmap.
Qed.

Lemma linked_filepath lazfiles gdf datafiles :
  gdf_columns (linked lazfiles gdf datafiles) !! "filepath"
  = Some (select (notnull <$> (matcher lazfiles <$> datafiles))
                 (matcher lazfiles <$> datafiles)).
Proof.
  rewrite linked_lookup by (apply metacols_elem; tauto).
  by rewrite lookup_insert_eq.
Qed.

Lemma linked_len lazfiles gdf datafiles :
  List.length datafiles = len gdf →
  len (linked lazfiles gdf datafiles) + List.length (unmatched lazfiles datafiles)
  = len gdf.
Proof.
  intros Hlen. unfold len in *. simpl. by apply length_select_notnull.
Qed.

Lemma to_crs_inv dst meta m :
  to_crs transform dst meta = inr m →
  gdf_index m = gdf_index meta ∧
  (∀ col, col ≠ "geometry" → gdf_columns m !! col = gdf_columns meta !! col) ∧
  gdf_crs m = Some dst ∧
  ∃ src, gdf_crs meta = Some src ∧
    gdf_columns m !! "geometry"
    = (if (src =? dst)%Z then id else fmap (reproject transform src dst))
        <$> gdf_columns meta !! "geometry".
Proof.
  unfold to_crs. destruct (gdf_geo meta); [|done].
  destruct (gdf_crs meta) as [src|] eqn:Hsrc; [|done].
  destruct (src =? dst)%Z eqn:E; intros [= <-]; simpl.
  - apply Z.eqb_eq in E as ->. repeat split; [done|]. exists dst. split; [done|].
    rewrite Z.eqb_refl. by destruct (gdf_columns meta !! "geometry").
  - repeat split; [intros col Hcol; by rewrite lookup_alter_ne|].
    exists src. split; [done|]. by rewrite E, lookup_alter_eq.
Qed.

Lemma drop_geometry_inv meta m :
  drop_geometry meta = inr m →
  gdf_index m = gdf_index meta ∧
  (∀ col, col ≠ "geometry" → gdf_columns m !! col = gdf_columns meta !! col) ∧
  gdf_columns m !! "geometry" = None.
Proof.
  unfold drop_geometry. destruct (gdf_columns meta !! "geometry"); [|done].
  intros [= <-]. simpl. repeat split.
  - intros col Hcol. by rewrite lookup_delete_ne.
  - apply lookup_delete_eq.
Qed.

(** On a ready frame the script runs to its end, and writes [linked], its
    reprojection and its flat form. *)
Lemma script_run gpkg_fn lazfiles gdf datafiles :
  ready gdf datafiles →
  ∃ meta_4326 df,
    script transform gpkg_fn lazfiles gdf
    = inr (mkArtifacts
             (Py.replace gpkg_fn ".gpkg" "_locpaths.gpkg", linked lazfiles gdf datafiles)
             (Py.replace gpkg_fn ".gpkg" "_locpaths_epsg4326.gpkg", meta_4326)
             (Py.replace gpkg_fn ".gpkg" "_locpaths.csv", df)) ∧
    to_crs transform 4326 (linked lazfiles gdf datafiles) = inr meta_4326 ∧
    drop_geometry (linked lazfiles gdf datafiles) = inr df.
Proof.
  intros ((Hgeo & _) & Hd & Hlen & Hcols).
  assert (Hto : ∃ m, to_crs transform 4326 (linked lazfiles gdf datafiles) = inr m).
  { unfold to_crs. unfold linked at 1 2. simpl.
    destruct (default 4326 (gdf_crs gdf) =? 4326)%Z; eauto. }
  assert (Hdrop : ∃ m, drop_geometry (linked lazfiles gdf datafiles) = inr m).
  { unfold drop_geometry. rewrite linked_lookup by (apply metacols_elem; tauto).
    rewrite lookup_insert_ne by done.
    destruct (ensure_geometry_present gdf) as [g ->]. simpl. eauto. }
  destruct Hto as [meta_4326 Hto]. destruct Hdrop as [df Hdrop].
  exists meta_4326, df. split; [|done].
  unfold script. rewrite (repaired_geo gdf Hgeo). simpl.
  rewrite (assign_filepath_str _ _ datafiles); last first.
  { simpl. by rewrite ensure_geometry_other. }
  simpl. unfold drop_unmatched, getitem. simpl. rewrite lookup_insert_eq. simpl.
  rewrite project_present; last first.
  { simpl. intros c Hc. rewrite lookup_fmap.
    apply metacols_elem in Hc as [-> | [-> | [-> | Hc]]].
    - rewrite lookup_insert_eq. simpl. eauto.
    - rewrite lookup_insert_ne by done.
      destruct (ensure_geometry_present gdf) as [g ->]. simpl. eauto.
    - rewrite lookup_insert_ne, ensure_geometry_other, Hd by done. simpl. eauto.
    - assert (c ≠ "filepath" ∧ c ≠ "geometry") as [Hfp Hg].
      { rewrite !elem_of_cons, elem_of_nil in Hc.
        destruct Hc as [-> | [-> | [-> | [-> | []]]]]; done. }
      rewrite lookup_insert_ne, ensure_geometry_other by done.
      destruct (Hcols c Hc) as [v ->]. simpl. eauto. }
  simpl. fold (linked lazfiles gdf datafiles).
  rewrite Hto. simpl. rewrite Hdrop. reflexivity.
Qed.

(** C4: every row of each persisted artifact has a non-null [filepath], and
    the rows persisted are the input records less the unmatched ones. *)
Theorem persisted_rows_are_matched gpkg_fn lazfiles gdf datafiles :
  ready gdf datafiles →
  ∃ arts, script transform gpkg_fn lazfiles gdf = inr arts ∧
    Forall (λ frame,
      (∃ paths, gdf_columns frame !! "filepath" = Some paths ∧
         Forall (λ v, isnull v = false) paths ∧
         List.length paths = len frame) ∧
      len frame + List.length (unmatched lazfiles datafiles) = len gdf)
    [(native_gpkg arts).2; (epsg4326_gpkg arts).2; (flat_csv arts).2].
Proof.
  intros Hready.
  destruct (script_run gpkg_fn lazfiles gdf datafiles Hready)
    as (meta_4326 & df & -> & Hto & Hdrop).
  destruct Hready as (_ & Hd & Hlen & _).
  apply to_crs_inv in Hto as (Hi1 & Hc1 & _).
  apply drop_geometry_inv in Hdrop as (Hi2 & Hc2 & _).
  pose proof (linked_filepath lazfiles gdf datafiles) as Hfp.
  pose proof (linked_len lazfiles gdf datafiles Hlen) as Hn.
  assert (Hpaths : List.length (select (notnull <$> (matcher lazfiles <$> datafiles))
                                       (matcher lazfiles <$> datafiles))
                   = len (linked lazfiles gdf datafiles)).
  { unfold len. simpl. apply length_select_same. rewrite length_fmap. exact Hlen. }
  eexists. split; [reflexivity|]. simpl.
  repeat apply Forall_cons_2; [| | |constructor].
  - split; [|done]. eexists. split; [exact Hfp|]. split; [apply select_notnull | done].
  - unfold len in *. rewrite Hi1. split; [|done].
    eexists. split; [by rewrite Hc1|]. split; [apply select_notnull | done].
  - unfold len in *. rewrite Hi2. split; [|done].
    eexists. split; [by rewrite Hc2|]. split; [apply select_notnull | done].
Qed.

(** C9: the three artifacts carry the same rows and the same values in every
    column but [geometry]; the EPSG:4326 vector differs in the geometry and
    the CRS only, the flat table in having no geometry column. *)
Theorem artifacts_agree_off_geometry gpkg_fn lazfiles gdf datafiles :
  ready gdf datafiles →
  ∃ arts, script transform gpkg_fn lazfiles gdf = inr arts ∧
    let native := (native_gpkg arts).2 in
    let standard := (epsg4326_gpkg arts).2 in
    let flat := (flat_csv arts).2 in
    gdf_index standard = gdf_index native ∧
    gdf_index flat = gdf_index native ∧
    (∀ col, col ≠ "geometry" →
       gdf_columns standard !! col = gdf_columns native !! col ∧
       gdf_columns flat !! col = gdf_columns native !! col) ∧
    gdf_columns flat !! "geometry" = None ∧
    gdf_crs standard = Some 4326%Z ∧
    ∃ src, gdf_crs native = Some src ∧
      gdf_columns standard !! "geometry"
      = (if (src =? 4326)%Z then id else fmap (reproject transform src 4326))
          <$> gdf_columns native !! "geometry".
Proof.
  intros Hready.
  destruct (script_run gpkg_fn lazfiles gdf datafiles Hready)
    as (meta_4326 & df & -> & Hto & Hdrop).
  apply to_crs_inv in Hto as (Hi1 & Hc1 & Hcrs & Hgeom).
  apply drop_geometry_inv in Hdrop as (Hi2 & Hc2 & Hnone).
  eexists. split; [reflexivity|]. simpl.
  repeat split; auto.
Qed.

End Artifacts.

Section Repairs.
Import Linker.

(** The script on a plain DataFrame stops at line 38. *)
Lemma script_plain transform gpkg_fn lazfiles gdf :
  gdf_geo gdf = false →
  script transform gpkg_fn lazfiles gdf
  = raise "AttributeError" "'DataFrame' object has no attribute 'crs'".
Proof. intros Hgeo. unfold script. by rewrite (repaired_plain gdf Hgeo). Qed.

(** C8, as stated, fails on a dataset without a geometry column, which is
    read as a plain DataFrame: line 35 gives it the placeholder on every row,
    and the CRS test of line 38 then raises [AttributeError], so that the
    script ends there and writes nothing. *)
Theorem missing_geometry_is_not_repaired :
  gdf_geo Runs.bare_gdf = false ∧
  gdf_columns Runs.bare_gdf !! "geometry" = None ∧
  gdf_columns (ensure_geometry Runs.bare_gdf) !! "geometry"
  = Some [PyGeom (Point 0 0); PyGeom (Point 0 0)] ∧
  ensure_crs (ensure_geometry Runs.bare_gdf)
  = raise "AttributeError" "'DataFrame' object has no attribute 'crs'" ∧
  ∀ transform gpkg_fn lazfiles,
    script transform gpkg_fn lazfiles Runs.bare_gdf
    = raise "AttributeError" "'DataFrame' object has no attribute 'crs'".
Proof.
  split; [reflexivity|].
  split; [vm_compute; reflexivity|]. split; [vm_compute; reflexivity|].
  split; [vm_compute; reflexivity|].
  intros transform gpkg_fn lazfiles. by apply script_plain.
Qed.

(** X21: on a GeoDataFrame lines 33-40 go through: geometries that are all
    null are replaced by the placeholder point (0, 0) on every row, a missing
    CRS becomes EPSG:4326, and a frame with a non-null geometry and a CRS is
    left as it is. *)
Theorem geodataframe_repairs (meta : GeoDataFrame) :
  is_geodataframe meta →
  ∃ repaired, ensure_crs (ensure_geometry meta) = inr repaired ∧
    ((∃ geoms, gdf_columns meta !! "geometry" = Some geoms ∧
               Forall (λ v, isnull v = true) geoms) →
     gdf_columns repaired !! "geometry"
     = Some (replicate (len meta) (PyGeom (Point 0 0)))) ∧
    (gdf_crs meta = None → gdf_crs repaired = Some 4326%Z) ∧
    ((∃ geoms v, gdf_columns meta !! "geometry" = Some geoms ∧
                 v ∈ geoms ∧ isnull v = false) →
     is_Some (gdf_crs meta) → repaired = meta).
Proof.
  intros [Hgeo _]. eexists. split; [exact (repaired_geo meta Hgeo)|].
  simpl. split; [|split].
  - intros (geoms & Hg & Hall). unfold ensure_geometry.
    assert (lacks_geometry meta = true) as ->.
    { unfold lacks_geometry. rewrite Hg.
      apply forallb_forall. intros v Hv%list_elem_of_In.
      revert v Hv. by apply Forall_forall. }
    simpl. apply lookup_insert_eq.
  - by intros ->.
  - intros (geoms & v & Hg & Hv & Hnn) [src Hsrc].
    assert (ensure_geometry meta = meta) as ->.
    { unfold ensure_geometry, lacks_geometry. rewrite Hg.
      destruct (forallb isnull geoms) eqn:E; [|done].
      rewrite forallb_forall in E. apply list_elem_of_In, E in Hv. congruence. }
    rewrite Hsrc. simpl. destruct meta; simpl in *; by subst.
Qed.

End Repairs.

(** * The raster converter *)

Section Conversion.
Import Converter.
Context `{Host}.

(** The run of the [try] suite when the path given as [tif_fn] is absent. *)
Lemma suite_absent laz_fn tif_fn epsg_code res window_size nodata dtm reclassify w :
  os_path_exists (PyStr tif_fn) (host w) = inr false →
  let pipeline := chain laz_fn (suffixed tif_fn reclassify) epsg_code res window_size
                        nodata dtm reclassify in
  let out := suffixed tif_fn reclassify in
  laz_to_tif_suite laz_fn (PyStr tif_fn) epsg_code res window_size nodata dtm reclassify w
  = match pdal_execute pipeline (host w) with
    | (inl e, h) =>
        (inl e, mkWorld h (stdout w ++ dsm_lines dtm)%list (executed w ++ [pipeline])%list)
    | (inr arrays, h) =>
        (inr (),
         mkWorld h
           (stdout w ++ dsm_lines dtm ++
            done_lines out (format_seconds (time_time (host w)) (time_time h)) arrays)%list
           (executed w ++ [pipeline])%list)
    end.
Proof.
  intros Hex. simpl.
  unfold laz_to_tif_suite, mbind, M_bind, path_exists. rewrite Hex.
  unfold now, lift, method_replace, mret, M_ret, execute, print, chain, suffixed, ior,
    done_lines.
  destruct reclassify, dtm; simpl;
    destruct (pdal_execute _ (host w)) as [[e|arrays] h]; simpl;
    rewrite ?app_nil_r, <- ?app_assoc; reflexivity.
Qed.

(** X1: when the path given as [tif_fn] exists, nothing but the notice
    happens: the host is untouched and no pipeline is run. *)
Lemma laz_to_tif_skip laz_fn tif_fn epsg_code res window_size nodata dtm reclassify w :
  os_path_exists tif_fn (host w) = inr true →
  laz_to_tif laz_fn tif_fn epsg_code res window_size nodata dtm reclassify w
  = (inr (), logged w [skip_line tif_fn]).
Proof.
  intros Hex.
  unfold laz_to_tif, try_except, laz_to_tif_suite, mbind, M_bind, path_exists.
  by rewrite Hex.
Qed.

(** An exception of the existence test is logged. *)
Lemma laz_to_tif_exists_raises laz_fn tif_fn epsg_code res window_size nodata dtm
    reclassify w e :
  os_path_exists tif_fn (host w) = inl e →
  laz_to_tif laz_fn tif_fn epsg_code res window_size nodata dtm reclassify w
  = (inr (), logged w [error_line laz_fn e]).
Proof.
  intros Hex.
  unfold laz_to_tif, try_except, laz_to_tif_suite, mbind, M_bind, path_exists.
  by rewrite Hex.
Qed.

(** The whole call when the path given as [tif_fn] is absent: the chain is
    run, whatever else exists, and an exception of the engine is logged. *)
Lemma laz_to_tif_absent laz_fn tif_fn epsg_code res window_size nodata dtm reclassify w :
  os_path_exists (PyStr tif_fn) (host w) = inr false →
  let pipeline := chain laz_fn (suffixed tif_fn reclassify) epsg_code res window_size
                        nodata dtm reclassify in
  let out := suffixed tif_fn reclassify in
  laz_to_tif laz_fn (PyStr tif_fn) epsg_code res window_size nodata dtm reclassify w
  = match pdal_execute pipeline (host w) with
    | (inl e, h) =>
        (inr (),
         mkWorld h (stdout w ++ dsm_lines dtm ++ [error_line laz_fn e])%list
                 (executed w ++ [pipeline])%list)
    | (inr arrays, h) =>
        (inr (),
         mkWorld h
           (stdout w ++ dsm_lines dtm ++
            done_lines out (format_seconds (time_time (host w)) (time_time h)) arrays)%list
           (executed w ++ [pipeline])%list)
    end.
Proof.
  intros Hex. simpl. unfold laz_to_tif, try_except.
  rewrite suite_absent by done.
  destruct (pdal_execute _ (host w)) as [[e|arrays] h]; [|done].
  unfold print. simpl. by rewrite <- app_assoc.
Qed.

(** C3: [laz_to_tif] returns normally on every input, and an exception raised
    anywhere in its [try] suite is logged with the input file and the error
    text. *)
Theorem laz_to_tif_never_raises laz_fn tif_fn epsg_code res window_size nodata dtm
    reclassify w :
  ∃ w', laz_to_tif laz_fn tif_fn epsg_code res window_size nodata dtm reclassify w
        = (inr (), w') ∧
    ∀ e w1, laz_to_tif_suite laz_fn tif_fn epsg_code res window_size nodata dtm
              reclassify w = (inl e, w1) →
            w' = logged w1 ["An error occurred during processing for "
                            ++ py_str laz_fn ++ ": " ++ exc_str e].
Proof.
  unfold laz_to_tif, try_except.
  destruct (laz_to_tif_suite _ _ _ _ _ _ _ _ w) as [[e|[]] w1].
  - eexists. split; [reflexivity|]. by intros e' w1' [= -> ->].
  - eexists. split; [reflexivity|]. intros e' w1' [=].
Qed.

(** C5: the chain handed to the engine: the reader; with reclassification the
    noise filter, the uniform class, the reprojection and SMRF, without it the
    reprojection alone; for a terrain model a last filter on the ground
    class, for a surface model none; and the writer. *)
Theorem filter_chain_order laz_fn tif_fn epsg_code res window_size nodata dtm reclassify w :
  os_path_exists (PyStr tif_fn) (host w) = inr false →
  executed (laz_to_tif laz_fn (PyStr tif_fn) epsg_code res window_size nodata dtm
              reclassify w).2
  = (executed w ++
     [([Reader laz_fn]
       ++ (if reclassify
           then [Filter_expression "Classification != 7";
                 Filter_assign "Classification[:]=0";
                 Filter_reprojection ("EPSG:" ++ py_str epsg_code);
                 Filter_smrf]
           else [Filter_reprojection ("EPSG:" ++ py_str epsg_code)])
       ++ (if dtm then [Filter_expression "Classification == 2"] else [])
       ++ [Writer_gdal
             (PyStr (Py.replace tif_fn ".tif"
                       (if reclassify then "_yrclf.tif" else "_nrclf.tif")))
             "tiled=yes,compress=deflate" nodata "idw" res window_size])])%list.
Proof.
  intros Hex. rewrite laz_to_tif_absent by done.
  by destruct (pdal_execute _ (host w)) as [[e|arrays] h].
Qed.

Lemma process_file_run idx df res window_size nodata vname las2tif_dpath dtm reclassify
    w dname laz_fn epsg_code b h :
  get_params df idx = inr (dname, laz_fn, epsg_code) →
  os_path_basename laz_fn = inr b →
  os_makedirs (Py.join las2tif_dpath dname) (host w) = (inr (), h) →
  process_file idx df res window_size nodata vname las2tif_dpath dtm reclassify w
  = laz_to_tif laz_fn (PyStr (raster_path las2tif_dpath dname b vname res window_size))
      (PyInt epsg_code) res window_size nodata dtm reclassify (with_host w h).
Proof.
  intros Hp Hb Hmk. unfold process_file, mbind, M_bind, lift, makedirs.
  rewrite Hp. simpl. rewrite Hb, Hmk. reflexivity.
Qed.

Lemma get_params_bad_epsg df idx transect laz_fn s :
  loc df "transect" idx = inr transect →
  loc df "filepath" idx = inr laz_fn →
  loc df "epsg" idx = inr (PyStr s) →
  parse_int s = None →
  get_params df idx
  = inl (mkException "ValueError"
           ("invalid literal for int() with base 10: '" ++ s ++ "'")).
Proof.
  intros Ht Hf He Hs. unfold get_params. rewrite Ht. simpl.
  rewrite Hf. simpl. rewrite He. simpl. by rewrite Hs.
Qed.

(** C10: the parameter extraction and the directory creation of
    [process_file] stand outside any handler: an exception of [get_params]
    (a non-numeric [epsg] raises one) or of [os.makedirs] leaves
    [process_file] as it is, with nothing logged. *)
Theorem job_setup_is_unguarded idx df res window_size nodata vname las2tif_dpath dtm
    reclassify w :
  (∀ e, get_params df idx = inl e →
     process_file idx df res window_size nodata vname las2tif_dpath dtm reclassify w
     = (inl e, w)) ∧
  (∀ dname laz_fn epsg_code b e h,
     get_params df idx = inr (dname, laz_fn, epsg_code) →
     os_path_basename laz_fn = inr b →
     os_makedirs (Py.join las2tif_dpath dname) (host w) = (inl e, h) →
     process_file idx df res window_size nodata vname las2tif_dpath dtm reclassify w
     = (inl e, with_host w h)) ∧
  (∀ transect laz_fn s,
     loc df "transect" idx = inr transect →
     loc df "filepath" idx = inr laz_fn →
     loc df "epsg" idx = inr (PyStr s) →
     parse_int s = None →
     ∃ e, get_params df idx = inl e ∧ exc_class e = "ValueError").
Proof.
  split; [|split].
  - intros e Hp. unfold process_file, mbind, M_bind, lift. by rewrite Hp.
  - intros dname laz_fn epsg_code b e h Hp Hb Hmk.
    unfold process_file, mbind, M_bind, lift, makedirs.
    rewrite Hp. simpl. by rewrite Hb, Hmk.
  - intros transect laz_fn s Ht Hf He Hs. eexists. split.
    + by eapply get_params_bad_epsg.
    + done.
Qed.

(** X2: the writer gets the documented name, whenever [.tif] stands in the
    path handed over only as its extension. *)
Lemma raster_name_pattern dpath dname b vname res window_size reclassify :
  only_at_end ".tif" (raster_path dpath dname b vname res window_size) →
  suffixed (raster_path dpath dname b vname res window_size) reclassify
  = Py.join (Py.join dpath dname)
      (Py.replace b ".laz" EmptyString ++ "-" ++ vname ++ py_str res ++ "m_"
         ++ py_str window_size ++ (if reclassify then "_yrclf.tif" else "_nrclf.tif")).
Proof.
  unfold suffixed, raster_path.
  set (stem := Py.replace b ".laz" EmptyString).
  assert (Hname : ∀ ext, stem ++ "-" ++ vname ++ py_str res ++ "m_"
                         ++ py_str window_size ++ ext
                       = (stem ++ "-" ++ vname ++ py_str res ++ "m_"
                          ++ py_str window_size) ++ ext).
  { intros ext. by rewrite !append_assoc. }
  assert (Hne : stem ++ "-" ++ vname ++ py_str res ++ "m_" ++ py_str window_size
                ≠ EmptyString) by (by destruct stem).
  rewrite !Hname, !(join_app _ _ _ Hne).
  intros Honly. by apply replace_at_end.
Qed.

End Conversion.

(** * The dispatch driver *)

Section Dispatch.
Import Converter.
Context `{Host}.

(** Every job of the completion order is run, and leaves a future. *)
Lemma run_pool_total (j : nat → M unit) completion w :
  ∃ futures w1, run_pool j completion w = (inr futures, w1) ∧ futures.*1 = completion.
Proof.
  revert w. induction completion as [|idx later IH]; intros w; simpl.
  - by exists [], w.
  - destruct (j idx w) as [r w0]. destruct (IH w0) as (futures & w1 & -> & Hidx).
    exists ((idx, r) :: futures), w1. split; [done|]. rewrite fmap_cons. by f_equal.
Qed.

(** The loop over the futures prints one line per exception, and goes on. *)
Lemma collect_run futures w :
  collect futures w = (inr (), logged w (dispatch_line <$> errors futures)).
Proof.
  revert w. induction futures as [|[idx r] later IH]; intros w.
  - simpl. unfold logged. by rewrite app_nil_r; destruct w.
  - cbn [collect]. unfold mbind, M_bind, try_except, lift, print.
    destruct r as [e|[]]; simpl; rewrite IH; unfold logged, errors; simpl.
    + by rewrite <- app_assoc.
    + done.
Qed.

(** C6, amended: the driver never raises; every submitted job has a future
    by the time the loop over the futures starts; each exception kept in a
    future is caught and logged with its text alone, the other futures being
    collected all the same; the elapsed run time is the last line printed. *)
Theorem driver_collects_every_job df las2tif_dpath completion w :
  Permutation completion (seq 0 (df_len df)) →
  ∃ futures w1,
    run_pool (job df las2tif_dpath) completion w = (inr futures, w1) ∧
    (∀ idx, (idx < df_len df)%nat → ∃ r, (idx, r) ∈ futures) ∧
    main df las2tif_dpath completion w
    = (inr (),
       logged w1
         ((dispatch_line <$> errors futures)
          ++ ["RUN.TIME " ++ format_minutes (perf_counter (host w))
                                            (perf_counter (host w1)) ++ " min(s)"])).
Proof.
  intros Hperm.
  destruct (run_pool_total (job df las2tif_dpath) completion w)
    as (futures & w1 & Hrun & Hidx).
  exists futures, w1. split; [done|]. split.
  - intros idx Hlt.
    assert (Hin : idx ∈ futures.*1).
    { rewrite Hidx, Hperm. apply elem_of_seq. lia. }
    apply list_elem_of_fmap in Hin as ([idx' r] & -> & Hin). by exists r.
  - unfold main, mbind at 1, M_bind at 1, perf_now.
    unfold mbind at 1, M_bind at 1. unfold job in Hrun. rewrite Hrun.
    unfold mbind, M_bind. rewrite collect_run. unfold print, logged. simpl.
    by rewrite <- app_assoc.
Qed.

End Dispatch.

(** * Further properties of the linker *)

Section MoreFrames.
Import Linker.

Lemma select_fmap {A B} (f : A → B) mask (l : list A) :
  select mask (f <$> l) = f <$> select mask l.
Proof.
  revert l. induction mask as [|b mask IH]; intros [|x l]; try done.
  rewrite fmap_cons. simpl. destruct b; [rewrite fmap_cons|]; by rewrite IH.
Qed.

Lemma select_sublist {A} mask (l : list A) : select mask l `sublist_of` l.
Proof.
  revert l. induction mask as [|b mask IH]; intros [|x l]; simpl;
    try apply sublist_nil_l.
  destruct b; [by apply sublist_skip | by apply sublist_cons].
Qed.

Lemma select_replicate {A} mask n (x : A) :
  select mask (replicate n x) = replicate (List.length (select mask (replicate n x))) x.
Proof.
  revert n. induction mask as [|b mask IH]; intros [|n]; try done.
  simpl. destruct b; simpl; by rewrite <- IH.
Qed.

Lemma filter_is_cons {A} (f : A → bool) (l : list A) x :
  x ∈ l → f x = true → ∃ y rest, List.filter f l = y :: rest.
Proof.
  induction 1 as [x l | x y l Hin IH]; intros Hx; simpl.
  - rewrite Hx. eauto.
  - destruct (f y) eqn:Hy; eauto.
Qed.

Lemma linked_kept lazfiles gdf datafiles col :
  col ∈ ["id"; "transect"; "datafile"; "epsg"; "random"] →
  gdf_columns (linked lazfiles gdf datafiles) !! col
  = select (keep_mask lazfiles datafiles) <$> gdf_columns gdf !! col.
Proof.
  intros Hcol.
  assert (col ∈ metacols ∧ col ≠ "filepath" ∧ col ≠ "geometry") as (Hin & Hfp & Hg).
  { rewrite !elem_of_cons, elem_of_nil in Hcol.
    destruct Hcol as [-> | [-> | [-> | [-> | [-> | []]]]]];
      (split; [|done]); apply metacols_elem; rewrite !elem_of_cons; tauto. }
  rewrite linked_lookup by done.
  by rewrite lookup_insert_ne, ensure_geometry_other.
Qed.

Lemma linked_present lazfiles gdf datafiles col :
  ready gdf datafiles →
  col ∈ metacols → is_Some (gdf_columns (linked lazfiles gdf datafiles) !! col).
Proof.
  intros (_ & Hd & Hlen & Hcols) Hin. rewrite linked_lookup by done.
  apply metacols_elem in Hin as [-> | [-> | [-> | Hc]]].
  - rewrite lookup_insert_eq. simpl. eauto.
  - rewrite lookup_insert_ne by done.
    destruct (ensure_geometry_present gdf) as [g ->]. simpl. eauto.
  - rewrite lookup_insert_ne, ensure_geometry_other, Hd by done. simpl. eauto.
  - assert (col ≠ "filepath" ∧ col ≠ "geometry") as [Hfp Hg].
    { rewrite !elem_of_cons, elem_of_nil in Hc.
      destruct Hc as [-> | [-> | [-> | [-> | []]]]]; done. }
    rewrite lookup_insert_ne, ensure_geometry_other by done.
    destruct (Hcols col Hc) as [v ->]. simpl. eauto.
Qed.

Lemma linked_absent lazfiles gdf datafiles col :
  col ∉ metacols → gdf_columns (linked lazfiles gdf datafiles) !! col = None.
Proof.
  intros Hout. unfold linked. simpl. apply map_lookup_filter_None. right.
  intros v _ Hin. by apply Hout.
Qed.

End MoreFrames.

Section MoreArtifacts.
Import Linker.
Variable transform : Z → Z → geometry → geometry.

(** X3: the two vector artifacts have exactly the whitelisted columns, the
    flat table the same without [geometry]; any other input column is gone. *)
Theorem persisted_columns_are_whitelist gpkg_fn lazfiles gdf datafiles :
  ready gdf datafiles →
  ∃ arts, script transform gpkg_fn lazfiles gdf = inr arts ∧
    ∀ col,
      (is_Some (gdf_columns (native_gpkg arts).2 !! col) ↔ col ∈ metacols) ∧
      (is_Some (gdf_columns (epsg4326_gpkg arts).2 !! col) ↔ col ∈ metacols) ∧
      (is_Some (gdf_columns (flat_csv arts).2 !! col)
       ↔ col ∈ metacols ∧ col ≠ "geometry").
Proof.
  intros Hready.
  destruct (script_run transform gpkg_fn lazfiles gdf datafiles Hready)
    as (meta_4326 & df & -> & Hto & Hdrop).
  apply to_crs_inv in Hto as (_ & Hc1 & _ & src & _ & Hgeom).
  apply drop_geometry_inv in Hdrop as (_ & Hc2 & Hnone).
  eexists. split; [reflexivity|]. intros col. simpl.
  assert (Hnative : is_Some (gdf_columns (linked lazfiles gdf datafiles) !! col)
                    ↔ col ∈ metacols).
  { split; [|by apply linked_present].
    intros Hsome. destruct (decide (col ∈ metacols)) as [|Hout]; [done|].
    rewrite linked_absent in Hsome by done. by destruct Hsome. }
  split; [exact Hnative|]. split.
  - destruct (decide (col = "geometry")) as [->|Hne]; [|by rewrite Hc1].
    rewrite Hgeom, <- Hnative. by rewrite fmap_is_Some.
  - destruct (decide (col = "geometry")) as [->|Hne].
    + rewrite Hnone. split; [by intros [] | by intros [_ []]].
    + rewrite Hc2, Hnative by done. tauto.
Qed.

(** X4: the rows persisted are input rows, in input order: the index and
    each kept column are the input's under one and the same mask, so the
    values of a record stay on its row, next to the path matched for it. *)
Theorem persisted_rows_stay_aligned gpkg_fn lazfiles gdf datafiles :
  ready gdf datafiles →
  ∃ arts, script transform gpkg_fn lazfiles gdf = inr arts ∧
    let native := (native_gpkg arts).2 in
    let mask := keep_mask lazfiles datafiles in
    gdf_index native = select mask (gdf_index gdf) ∧
    gdf_index native `sublist_of` gdf_index gdf ∧
    (∀ col, col ∈ ["id"; "transect"; "datafile"; "epsg"; "random"] →
       gdf_columns native !! col = select mask <$> gdf_columns gdf !! col) ∧
    gdf_columns native !! "datafile" = Some (PyStr <$> select mask datafiles) ∧
    gdf_columns native !! "filepath"
    = Some (matcher lazfiles <$> select mask datafiles).
Proof.
  intros Hready.
  destruct (script_run transform gpkg_fn lazfiles gdf datafiles Hready)
    as (meta_4326 & df & -> & _ & _).
  destruct Hready as (_ & Hd & _ & _).
  eexists. split; [reflexivity|]. cbn [native_gpkg snd].
  split; [done|]. split; [apply select_sublist|].
  split; [intros col Hcol; by apply linked_kept|]. split.
  - rewrite linked_kept, Hd by (rewrite !elem_of_cons; tauto).
    simpl. by rewrite select_fmap.
  - rewrite linked_filepath. by rewrite select_fmap.
Qed.


(** X5: a GeoDataFrame without a [datafile] column stops the script at
    line 43 with [KeyError: 'datafile'], before anything is written. *)
Theorem script_needs_datafile gpkg_fn lazfiles gdf :
  is_geodataframe gdf →
  gdf_columns gdf !! "datafile" = None →
  script transform gpkg_fn lazfiles gdf = raise "KeyError" "'datafile'".
Proof.
  intros [Hgeo _] Hnone. unfold script. rewrite (repaired_geo gdf Hgeo). simpl.
  unfold assign_filepath, getitem. simpl.
  by rewrite ensure_geometry_other, Hnone.
Qed.

(** X6: on a GeoDataFrame a missing whitelisted column stops the script at
    the projection of line 50 with a [KeyError], before anything is written. *)
Theorem script_needs_whitelisted_columns gpkg_fn lazfiles gdf datafiles col :
  is_geodataframe gdf →
  gdf_columns gdf !! "datafile" = Some (PyStr <$> datafiles) →
  col ∈ ["id"; "transect"; "epsg"; "random"] →
  gdf_columns gdf !! col = None →
  ∃ e, script transform gpkg_fn lazfiles gdf = inl e ∧ exc_class e = "KeyError".
Proof.
  intros [Hgeo _] Hd Hcol Hnone.
  assert (col ∈ metacols ∧ col ≠ "filepath" ∧ col ≠ "geometry") as (Hin & Hfp & Hg).
  { rewrite !elem_of_cons, elem_of_nil in Hcol.
    destruct Hcol as [-> | [-> | [-> | [-> | []]]]];
      (split; [|done]); apply metacols_elem; rewrite !elem_of_cons; tauto. }
  unfold script. rewrite (repaired_geo gdf Hgeo). simpl.
  rewrite (assign_filepath_str _ _ datafiles); last first.
  { simpl. by rewrite ensure_geometry_other. }
  simpl. unfold drop_unmatched, getitem. simpl. rewrite lookup_insert_eq. simpl.
  unfold project.
  match goal with |- context [List.filter ?f metacols] =>
    destruct (filter_is_cons f metacols col Hin) as (c & rest & ->)
  end.
  - apply bool_decide_eq_true. simpl.
    by rewrite lookup_fmap, lookup_insert_ne, ensure_geometry_other, Hnone.
  - simpl. eauto.
Qed.

Lemma series_apply_raises basenames (cells : list pyval) :
  Exists (λ v, ¬ is_str v) cells →
  ∃ e, series_apply (λ x, find_closest_match_datafile x basenames) cells = inl e ∧
       exc_class e = "TypeError".
Proof.
  induction 1 as [v cells Hv | v cells _ IH]; simpl.
  - destruct v as [s| | | |]; try (eexists; split; reflexivity).
    destruct Hv. by exists s.
  - destruct IH as (e & He & Hcls).
    destruct v as [s| | | |]; try (eexists; split; reflexivity).
    simpl. rewrite He. eauto.
Qed.

(** X7: on a GeoDataFrame a [datafile] cell that is not a string (an empty
    field) stops the script at line 43 with the [TypeError] of
    [os.path.basename]. *)
Theorem script_rejects_null_datafile gpkg_fn lazfiles gdf cells :
  is_geodataframe gdf →
  gdf_columns gdf !! "datafile" = Some cells →
  Exists (λ v, ¬ is_str v) cells →
  ∃ e, script transform gpkg_fn lazfiles gdf = inl e ∧ exc_class e = "TypeError".
Proof.
  intros [Hgeo _] Hd Hbad.
  destruct (series_apply_raises lazfiles cells Hbad) as (e & He & Hcls).
  exists e. split; [|done].
  unfold script. rewrite (repaired_geo gdf Hgeo). simpl.
  unfold assign_filepath, getitem. simpl.
  rewrite ensure_geometry_other, Hd by done. simpl. by rewrite He.
Qed.

(** X8: with no point-cloud file discovered every record is unmatched, and
    the script hands three tables without rows to the writers. *)
Theorem no_files_no_rows gpkg_fn gdf datafiles :
  ready gdf datafiles →
  ∃ arts, script transform gpkg_fn [] gdf = inr arts ∧
    gdf_index (native_gpkg arts).2 = [] ∧
    gdf_index (epsg4326_gpkg arts).2 = [] ∧
    gdf_index (flat_csv arts).2 = [].
Proof.
  intros Hready.
  destruct (script_run transform gpkg_fn [] gdf datafiles Hready)
    as (meta_4326 & df & -> & Hto & Hdrop).
  apply to_crs_inv in Hto as (Hi1 & _).
  apply drop_geometry_inv in Hdrop as (Hi2 & _).
  assert (Hnil : gdf_index (linked [] gdf datafiles) = []).
  { unfold linked. cbn [gdf_index].
    generalize (gdf_index gdf). clear. induction datafiles as [|d ds IH]; [done|].
    intros [|i l]; [done|]. rewrite !fmap_cons. simpl. apply IH. }
  eexists. split; [reflexivity|]. cbn [native_gpkg epsg4326_gpkg flat_csv snd].
  by rewrite Hi1, Hi2.
Qed.

(** X9: when the geometries of the input GeoDataFrame are all null, every
    persisted row carries the placeholder point; the CRS persisted is the
    input's, EPSG:4326 when the input has none. *)
Theorem placeholder_geometry_is_persisted gpkg_fn lazfiles gdf datafiles geoms :
  ready gdf datafiles →
  gdf_columns gdf !! "geometry" = Some geoms →
  Forall (λ v, isnull v = true) geoms →
  ∃ arts, script transform gpkg_fn lazfiles gdf = inr arts ∧
    let native := (native_gpkg arts).2 in
    gdf_columns native !! "geometry" = Some (replicate (len native) (PyGeom (Point 0 0))) ∧
    gdf_crs native = Some (default 4326%Z (gdf_crs gdf)).
Proof.
  intros Hready Hg Hnull.
  assert (Hlacks : lacks_geometry gdf = true).
  { unfold lacks_geometry. rewrite Hg.
    apply forallb_forall. intros v Hv%list_elem_of_In.
    revert v Hv. by apply Forall_forall. }
  destruct (script_run transform gpkg_fn lazfiles gdf datafiles Hready)
    as (meta_4326 & df & -> & _ & _).
  eexists. split; [reflexivity|]. cbn [native_gpkg snd]. split; [|done].
  rewrite linked_lookup by (apply metacols_elem; tauto).
  rewrite lookup_insert_ne by done.
  unfold ensure_geometry. rewrite Hlacks. simpl. rewrite lookup_insert_eq. simpl.
  f_equal. rewrite select_replicate. f_equal.
  unfold len. apply length_select_same. by rewrite length_replicate.
Qed.

End MoreArtifacts.

Section MoreMatching.
Import Linker.

(** X10: a datafile whose basename is empty or starts with [_dn_] has an
    empty base; every basename starts with it, so the record gets the first
    discovered file, whatever its name. *)
Theorem empty_base_matches_first_file datafile first rest :
  is_prefix "_dn_" (Py.basename datafile) ∨ Py.basename datafile = EmptyString →
  find_closest_match_datafile (PyStr datafile) (first :: rest) = inr (PyStr first).
Proof.
  intros Hbase. rewrite find_closest_match_datafile_str. unfold matcher.
  assert (Py.split_head (Py.basename datafile) "_dn_" = EmptyString) as ->; [|done].
  destruct Hbase as [Hpre%startswith_spec | ->]; [|done].
  destruct (Py.basename datafile); simpl in *; [done | by rewrite Hpre].
Qed.

End MoreMatching.

Section Names.
Import Linker.
Variable transform : Z → Z → geometry → geometry.

Lemma contains_tail c s sep :
  Py.contains (String c s) sep = false →
  Py.startswith (String c s) sep = false ∧ Py.contains s sep = false.
Proof.
  cbn [Py.contains]. by destruct (Py.startswith (String c s) sep).
Qed.

(** Replacing what is not there changes nothing. *)
Lemma replace_absent s old new :
  Py.contains s old = false → Py.replace s old new = s.
Proof.
  unfold Py.replace. induction s as [|c s IH]; [done|].
  intros [Hhead Htail]%contains_tail. cbn [Py.replace_go].
  rewrite Hhead. f_equal. by apply IH.
Qed.

(** X11: for a dataset named [<stem>.gpkg] the three artifacts are named
    [<stem>_locpaths.gpkg], [<stem>_locpaths_epsg4326.gpkg] and
    [<stem>_locpaths.csv]; none of them is the input. *)
Theorem output_names_from_gpkg gpkg_fn stem lazfiles gdf datafiles :
  gpkg_fn = stem ++ ".gpkg" →
  only_at_end ".gpkg" gpkg_fn →
  ready gdf datafiles →
  ∃ arts, script transform gpkg_fn lazfiles gdf = inr arts ∧
    (native_gpkg arts).1 = stem ++ "_locpaths.gpkg" ∧
    (epsg4326_gpkg arts).1 = stem ++ "_locpaths_epsg4326.gpkg" ∧
    (flat_csv arts).1 = stem ++ "_locpaths.csv" ∧
    (native_gpkg arts).1 ≠ gpkg_fn ∧
    (epsg4326_gpkg arts).1 ≠ gpkg_fn ∧
    (flat_csv arts).1 ≠ gpkg_fn.
Proof.
  intros -> Honly Hready.
  destruct (script_run transform (stem ++ ".gpkg") lazfiles gdf datafiles Hready)
    as (meta_4326 & df & -> & _ & _).
  eexists. split; [reflexivity|]. cbn [native_gpkg epsg4326_gpkg flat_csv fst].
  rewrite !replace_at_end by done.
  repeat split; intros Heq%(inj (String.append stem)); discriminate Heq.
Qed.

(** X12: for a dataset whose name has no [.gpkg] in it the three names are
    all the input's own name. *)
Theorem output_names_without_gpkg gpkg_fn lazfiles gdf datafiles :
  Py.contains gpkg_fn ".gpkg" = false →
  ready gdf datafiles →
  ∃ arts, script transform gpkg_fn lazfiles gdf = inr arts ∧
    (native_gpkg arts).1 = gpkg_fn ∧
    (epsg4326_gpkg arts).1 = gpkg_fn ∧
    (flat_csv arts).1 = gpkg_fn.
Proof.
  intros Habsent Hready.
  destruct (script_run transform gpkg_fn lazfiles gdf datafiles Hready)
    as (meta_4326 & df & -> & _ & _).
  eexists. split; [reflexivity|]. cbn [native_gpkg epsg4326_gpkg flat_csv fst].
  by rewrite !replace_absent.
Qed.

End Names.

(** * Further properties of the converter *)

Section IntOfText.
Import Converter.

Lemma rev_app_rev_app s t u :
  String.rev_app (String.rev_app s t) u = String.rev_app t (s ++ u).
Proof.
  revert t u. induction s as [|c s IH]; intros t u; [done|].
  cbn [String.rev_app]. by rewrite IH.
Qed.

Lemma rev_rev s : String.rev (String.rev s) = s.
Proof. unfold String.rev. rewrite rev_app_rev_app. apply append_nil_r. Qed.

Lemma digit_not_space c : is_Some (Ascii.is_nat c) → is_space c = false.
Proof.
  intros [d Hd]. destruct c as [[] [] [] [] [] [] [] []]; try discriminate Hd; reflexivity.
Qed.

Lemma digit_not_sign c :
  is_Some (Ascii.is_nat c) → c ≠ "-"%char ∧ c ≠ "+"%char ∧ c ≠ "_"%char.
Proof.
  intros [d Hd]. destruct c as [[] [] [] [] [] [] [] []]; try discriminate Hd; done.
Qed.

Lemma spaceless_rev_app s t :
  spaceless s → spaceless t → spaceless (String.rev_app s t).
Proof.
  revert t. induction s as [|c s IH]; intros t Hs Ht; [done|].
  destruct Hs as [Hc Hs]. cbn [String.rev_app]. apply IH; [done|]. by split.
Qed.

Lemma lstrip_spaceless s : spaceless s → lstrip s = s.
Proof. destruct s as [|c s]; [done|]. intros [Hc _]. simpl. by rewrite Hc. Qed.

Lemma strip_spaceless s : spaceless s → strip s = s.
Proof.
  intros Hs. unfold strip. rewrite (lstrip_spaceless s) by done.
  rewrite lstrip_spaceless by (by apply spaceless_rev_app).
  apply rev_rev.
Qed.

Lemma digits_spaceless s : digits_only s → spaceless s.
Proof.
  induction s as [|c s IH]; [done|]. intros [Hc Hs].
  split; [by apply digit_not_space | by apply IH].
Qed.

Lemma is_nat_pretty_N_char r :
  (r < 10)%N → Ascii.is_nat (pretty_N_char r) = Some (N.to_nat r).
Proof.
  intros Hr.
  assert (r = 0 ∨ r = 1 ∨ r = 2 ∨ r = 3 ∨ r = 4 ∨ r = 5 ∨ r = 6 ∨ r = 7 ∨ r = 8
          ∨ r = 9)%N as Hcases by lia.
  repeat (destruct Hcases as [-> | Hcases]; [reflexivity|]). by subst.
Qed.

(** The digits [pretty] puts before [s] are read back as the number. *)
Lemma parse_digits_pretty_N_go x :
  (0 < x)%N →
  ∃ m : Z, ∀ s acc b,
    parse_digits acc b (pretty_N_go x s)
    = parse_digits (acc * m + Z.of_N x) true s.
Proof.
  induction (N.lt_wf_0 x) as [x _ IH]. intros Hx.
  assert (Hr : (x `mod` 10 < 10)%N) by (apply N.mod_lt; lia).
  assert (Hdiv : x = (10 * (x `div` 10) + x `mod` 10)%N) by (apply N.div_mod; lia).
  destruct (decide (x `div` 10 = 0)%N) as [Hq|Hq].
  - exists 10%Z. intros s acc b.
    rewrite pretty_N_go_step, Hq, pretty_N_go_0 by done.
    cbn [parse_digits]. rewrite is_nat_pretty_N_char by done.
    f_equal. rewrite N_nat_Z. lia.
  - assert (Hlt : (x `div` 10 < x)%N) by (apply N.div_lt; lia).
    assert (Hpos : (0 < x `div` 10)%N) by lia.
    destruct (IH _ Hlt Hpos) as [m Hm].
    exists (10 * m)%Z. intros s acc b.
    rewrite pretty_N_go_step, Hm by done.
    cbn [parse_digits]. rewrite is_nat_pretty_N_char by done.
    f_equal. rewrite N_nat_Z. lia.
Qed.

Lemma digits_only_pretty_N_go x s : digits_only s → digits_only (pretty_N_go x s).
Proof.
  revert s. induction (N.lt_wf_0 x) as [x _ IH]; intros s Hs.
  destruct (decide (0 < x)%N) as [Hx|Hx].
  - rewrite pretty_N_go_step by done. apply IH; [apply N.div_lt; lia|].
    split; [|done]. rewrite is_nat_pretty_N_char by (apply N.mod_lt; lia). eauto.
  - assert (x = 0%N) as -> by lia. by rewrite pretty_N_go_0.
Qed.

Lemma pretty_pos_digits (p : positive) :
  digits_only (pretty p) ∧ parse_digits 0 false (pretty p) = Some (Zpos p).
Proof.
  unfold pretty, pretty_positive, pretty, pretty_N.
  rewrite decide_False by done. split.
  - by apply digits_only_pretty_N_go.
  - destruct (parse_digits_pretty_N_go (Npos p)) as [m Hm]; [done|].
    rewrite Hm. cbn [parse_digits]. by rewrite Z.mul_0_l.
Qed.

Lemma parse_int_digits s :
  digits_only s → parse_int s = parse_digits 0 false s.
Proof.
  intros Hs. unfold parse_int. rewrite strip_spaceless by by apply digits_spaceless.
  destruct s as [|c s]; [done|]. destruct Hs as [Hc _].
  destruct (digit_not_sign c Hc) as (Hm & Hp & _).
  destruct c as [[] [] [] [] [] [] [] []]; done.
Qed.

(** [int(str(z)) = z] *)
Lemma parse_int_pretty (z : Z) : parse_int (pretty z) = Some z.
Proof.
  destruct z as [|p|p].
  - reflexivity.
  - destruct (pretty_pos_digits p) as [Hd Hp].
    change (pretty (Zpos p)) with (pretty p). by rewrite parse_int_digits.
  - destruct (pretty_pos_digits p) as [Hd Hp].
    change (pretty (Zneg p)) with ("-" ++ pretty p).
    unfold parse_int. rewrite strip_spaceless.
    + rewrite append_cons, append_empty_l. by rewrite Hp.
    + rewrite append_cons, append_empty_l. split; [done | by apply digits_spaceless].
Qed.

(** X16: [get_params] returns the transect as text, the file path as it is
    and the EPSG code as an integer, the same whether the table holds the code
    as an integer or as its decimal text. *)
Theorem get_params_reads_textual_epsg df idx transect laz_fn z :
  loc df "transect" idx = inr transect →
  loc df "filepath" idx = inr laz_fn →
  loc df "epsg" idx = inr (PyInt z) ∨ loc df "epsg" idx = inr (PyStr (pretty z)) →
  get_params df idx = inr (py_str transect, laz_fn, z).
Proof.
  intros Ht Hf He. unfold get_params. rewrite Ht. simpl. rewrite Hf. simpl.
  destruct He as [-> | ->]; simpl; [done|]. by rewrite parse_int_pretty.
Qed.

End IntOfText.

Section MoreConversion.
Import Converter.
Context `{Host}.

(** The run of the [try] suite when the path given as [tif_fn] exists. *)
Lemma suite_present laz_fn tif_fn epsg_code res window_size nodata dtm reclassify w :
  os_path_exists tif_fn (host w) = inr true →
  laz_to_tif_suite laz_fn tif_fn epsg_code res window_size nodata dtm reclassify w
  = (inr (), logged w [skip_line tif_fn]).
Proof.
  intros Hex. unfold laz_to_tif_suite, mbind, M_bind, path_exists. by rewrite Hex.
Qed.

Lemma method_replace_not_str v old new :
  ¬ is_str v → ∃ e, method_replace v old new = inl e ∧ exc_class e = "AttributeError".
Proof.
  intros Hv. destruct v as [s| | | |]; try (eexists; split; reflexivity).
  destruct Hv. by exists s.
Qed.

Lemma laz_to_tif_not_str laz_fn tif_fn epsg_code res window_size nodata dtm reclassify w :
  ¬ is_str tif_fn →
  ∃ line, laz_to_tif laz_fn tif_fn epsg_code res window_size nodata dtm reclassify w
          = (inr (), logged w [line]).
Proof.
  intros Hv.
  destruct (os_path_exists tif_fn (host w)) as [e|[]] eqn:Hex.
  - eexists. by apply laz_to_tif_exists_raises.
  - eexists. unfold laz_to_tif, try_except. by rewrite suite_present.
  - destruct (method_replace_not_str tif_fn ".tif" "_yrclf.tif" Hv) as (e1 & He1 & _).
    destruct (method_replace_not_str tif_fn ".tif" "_nrclf.tif" Hv) as (e2 & He2 & _).
    unfold laz_to_tif, try_except, laz_to_tif_suite, mbind, M_bind, path_exists.
    rewrite Hex. unfold now, lift. simpl.
    destruct reclassify; [rewrite He1 | rewrite He2]; simpl; eauto.
Qed.

(** X13: given a [tif_fn] that is not a string, [laz_to_tif] prints one
    line and returns: the host is untouched and no pipeline is run. *)
Theorem laz_to_tif_rejects_bad_output_name laz_fn tif_fn epsg_code res window_size nodata
    dtm reclassify w :
  ¬ is_str tif_fn →
  ∃ w' line,
    laz_to_tif laz_fn tif_fn epsg_code res window_size nodata dtm reclassify w
    = (inr (), w') ∧
    host w' = host w ∧ executed w' = executed w ∧
    stdout w' = (stdout w ++ [line])%list.
Proof.
  intros Hv.
  destruct (laz_to_tif_not_str laz_fn tif_fn epsg_code res window_size nodata dtm
              reclassify w Hv) as (line & ->).
  by exists (logged w [line]), line.
Qed.

Lemma os_path_basename_not_str v :
  ¬ is_str v → ∃ e, os_path_basename v = inl e ∧ exc_class e = "TypeError".
Proof.
  intros Hv. destruct v as [s| | | |]; try (eexists; split; reflexivity).
  destruct Hv. by exists s.
Qed.

(** X14: a row whose [filepath] is not a string (an empty field) makes
    [process_file] raise the [TypeError] of [os.path.basename] before any
    directory is created or line printed. *)
Theorem process_file_rejects_null_filepath idx df res window_size nodata vname
    las2tif_dpath dtm reclassify w dname laz_fn epsg_code :
  get_params df idx = inr (dname, laz_fn, epsg_code) →
  ¬ is_str laz_fn →
  ∃ e, process_file idx df res window_size nodata vname las2tif_dpath dtm reclassify w
       = (inl e, w) ∧ exc_class e = "TypeError".
Proof.
  intros Hp Hv. destruct (os_path_basename_not_str laz_fn Hv) as (e & He & Hcls).
  exists e. split; [|done].
  unfold process_file, mbind, M_bind, lift. rewrite Hp. simpl. by rewrite He.
Qed.

Lemma loc_inv df col idx :
  match loc df col idx with
  | inl e => exc_class e = "KeyError"
  | inr v => ∃ series, df_columns df !! col = Some series ∧ series !! idx = Some v
  end.
Proof.
  unfold loc. destruct (df_columns df !! col) as [series|]; [|done].
  destruct (series !! idx) eqn:E; simpl; [eauto | done].
Qed.

(** X15: [get_params] raises [KeyError] when one of its three columns is
    missing or ends before row [idx]. *)
Theorem get_params_key_error df idx col :
  col ∈ ["transect"; "filepath"; "epsg"] →
  (∀ series, df_columns df !! col = Some series → (List.length series ≤ idx)%nat) →
  ∃ e, get_params df idx = inl e ∧ exc_class e = "KeyError".
Proof.
  intros Hcol Hshort.
  assert (Hno : ∀ v, loc df col idx ≠ inr v).
  { intros v Hv. pose proof (loc_inv df col idx) as Hinv. rewrite Hv in Hinv.
    destruct Hinv as (series & Hs & Hi). apply Hshort in Hs.
    apply lookup_lt_Some in Hi. lia. }
  unfold get_params.
  pose proof (loc_inv df "transect" idx) as Ht.
  destruct (loc df "transect" idx) as [e|t] eqn:Et; [eauto|]. simpl.
  pose proof (loc_inv df "filepath" idx) as Hf.
  destruct (loc df "filepath" idx) as [e|f] eqn:Ef; [eauto|]. simpl.
  pose proof (loc_inv df "epsg" idx) as He.
  destruct (loc df "epsg" idx) as [e|v] eqn:Ee; [eauto|]. exfalso.
  rewrite !elem_of_cons, elem_of_nil in Hcol.
  destruct Hcol as [-> | [-> | [-> | []]]]; eapply Hno; eauto.
Qed.

(** X17: for a row with a string [filepath] and a numeric [epsg], once the
    directory is made and the raster name is free, [process_file] runs one
    pipeline: it reads the row's file, reprojects to the row's EPSG code and
    writes under the row's transect directory. *)
Theorem process_file_converts_row idx df res window_size nodata vname las2tif_dpath dtm
    reclassify w transect laz epsg epsg_code h :
  loc df "transect" idx = inr transect →
  loc df "filepath" idx = inr (PyStr laz) →
  loc df "epsg" idx = inr epsg →
  py_int epsg = inr epsg_code →
  os_makedirs (Py.join las2tif_dpath (py_str transect)) (host w) = (inr (), h) →
  os_path_exists
    (PyStr (raster_path las2tif_dpath (py_str transect) (Py.basename laz) vname res
                        window_size)) h = inr false →
  executed (process_file idx df res window_size nodata vname las2tif_dpath dtm
              reclassify w).2
  = (executed w ++
     [chain (PyStr laz)
        (suffixed (raster_path las2tif_dpath (py_str transect) (Py.basename laz) vname
                               res window_size) reclassify)
        (PyInt epsg_code) res window_size nodata dtm reclassify])%list.
Proof.
  intros Ht Hf He Hi Hmk Hex.
  assert (Hp : get_params df idx = inr (py_str transect, PyStr laz, epsg_code)).
  { unfold get_params. rewrite Ht. simpl. rewrite Hf. simpl. rewrite He. simpl.
    by rewrite Hi. }
  rewrite (process_file_run _ _ _ _ _ _ _ _ _ _ _ _ _ _ _ Hp eq_refl Hmk).
  rewrite laz_to_tif_absent by done.
  by destruct (pdal_execute _ _) as [[e|arrays] h'].
Qed.

(** X18: after a successful run the host is as the engine left it and the
    report is three lines: the elapsed time, the size of the first array of
    [pipeline.arrays] (0 when there is none), and the file written. *)
Theorem laz_to_tif_reports_first_array laz_fn tif_fn epsg_code res window_size nodata
    dtm reclassify w arrays h :
  os_path_exists (PyStr tif_fn) (host w) = inr false →
  pdal_execute (chain laz_fn (suffixed tif_fn reclassify) epsg_code res window_size
                      nodata dtm reclassify) (host w) = (inr arrays, h) →
  let w' := (laz_to_tif laz_fn (PyStr tif_fn) epsg_code res window_size nodata dtm
               reclassify w).2 in
  let report :=
    ["Processing completed for " ++ suffixed tif_fn reclassify ++ " in "
       ++ format_seconds (time_time (host w)) (time_time h) ++ " seconds.";
     "Processed point cloud contains " ++ pretty (default 0 (head arrays)) ++ " points";
     "Output saved to " ++ suffixed tif_fn reclassify] in
  host w' = h ∧
  stdout w' = (stdout w ++ dsm_lines dtm ++ report)%list.
Proof.
  intros Hex Hrun. rewrite laz_to_tif_absent by done. rewrite Hrun. simpl.
  split; [done|]. by destruct arrays.
Qed.

(** X19: when the engine raises, the pipeline has been tried once, the
    error line is the last one printed and none of the three report lines
    is. *)
Theorem laz_to_tif_logs_engine_error laz_fn tif_fn epsg_code res window_size nodata
    dtm reclassify w e h :
  os_path_exists (PyStr tif_fn) (host w) = inr false →
  pdal_execute (chain laz_fn (suffixed tif_fn reclassify) epsg_code res window_size
                      nodata dtm reclassify) (host w) = (inl e, h) →
  laz_to_tif laz_fn (PyStr tif_fn) epsg_code res window_size nodata dtm reclassify w
  = (inr (),
     mkWorld h
       (stdout w ++ dsm_lines dtm ++ [error_line laz_fn e])%list
       (executed w ++ [chain laz_fn (suffixed tif_fn reclassify) epsg_code res
                             window_size nodata dtm reclassify])%list).
Proof.
  intros Hex Hrun. rewrite laz_to_tif_absent by done. by rewrite Hrun.
Qed.


Lemma grows_refl w : grows [] w w.
Proof. split; [|exists []]; by rewrite app_nil_r. Qed.

Lemma grows_trans p1 p2 w w1 w2 :
  grows p1 w w1 → grows p2 w1 w2 → grows (p1 ++ p2) w w2.
Proof.
  intros (He1 & l1 & Hs1) (He2 & l2 & Hs2). split.
  - by rewrite He2, He1, <- app_assoc.
  - exists (l1 ++ l2)%list. by rewrite Hs2, Hs1, <- app_assoc.
Qed.

Lemma grows_logged w lines : grows [] w (logged w lines).
Proof. split; [by rewrite app_nil_r | by exists lines]. Qed.

Lemma grows_with_host w h : grows [] w (with_host w h).
Proof. split; [|exists []]; by rewrite app_nil_r. Qed.

Lemma chain_reads laz_fn out epsg_code res window_size nodata dtm reclassify :
  ∃ stages,
    chain laz_fn out epsg_code res window_size nodata dtm reclassify
    = Reader laz_fn :: stages.
Proof. unfold chain. simpl. eauto. Qed.

(** One call of the converter hands the engine at most one pipeline, which
    reads the point cloud it was called for. *)
Lemma laz_to_tif_grows laz_fn tif_fn epsg_code res window_size nodata dtm reclassify w :
  ∃ pipelines, reads_once laz_fn pipelines ∧
    grows pipelines w
      (laz_to_tif laz_fn tif_fn epsg_code res window_size nodata dtm reclassify w).2.
Proof.
  destruct tif_fn as [s| | | |];
    try (edestruct laz_to_tif_not_str as (line & ->);
         [by intros [? [=]] | exists []; split; [by left | apply grows_logged]]).
  destruct (os_path_exists (PyStr s) (host w)) as [e|[]] eqn:Hex.
  - rewrite (laz_to_tif_exists_raises _ _ _ _ _ _ _ _ _ _ Hex).
    exists []. split; [by left | apply grows_logged].
  - unfold laz_to_tif, try_except. rewrite suite_present by done.
    exists []. split; [by left | apply grows_logged].
  - rewrite laz_to_tif_absent by done.
    destruct (chain_reads laz_fn (suffixed s reclassify) epsg_code res window_size
                nodata dtm reclassify) as [stages Hchain].
    exists [Reader laz_fn :: stages]. split; [right; by exists stages|].
    rewrite Hchain.
    destruct (pdal_execute _ (host w)) as [[e|arrays] h]; simpl;
      (split; [done | eauto]).
Qed.

Lemma get_params_filepath df idx dname laz_fn epsg_code :
  get_params df idx = inr (dname, laz_fn, epsg_code) →
  loc df "filepath" idx = inr laz_fn.
Proof.
  unfold get_params.
  destruct (loc df "transect" idx) as [e|transect]; [done|]. simpl.
  destruct (loc df "filepath" idx) as [e|fp]; [done|]. simpl.
  destruct (loc df "epsg" idx) as [e|epsg]; [done|]. simpl.
  destruct (py_int epsg) as [e|z]; [done|]. simpl. by intros [= _ -> _].
Qed.

Lemma process_file_grows idx df res window_size nodata vname las2tif_dpath dtm
    reclassify w :
  ∃ pipelines, job_pipelines df idx pipelines ∧
    grows pipelines w
      (process_file idx df res window_size nodata vname las2tif_dpath dtm
         reclassify w).2.
Proof.
  unfold process_file, mbind, M_bind, lift, makedirs.
  destruct (get_params df idx) as [e|[[dname laz_fn] epsg_code]] eqn:Hparams; simpl;
    [exists []; split; [by left | apply grows_refl]|].
  apply get_params_filepath in Hparams.
  destruct (os_path_basename laz_fn) as [e|b]; simpl;
    [exists []; split; [by left | apply grows_refl]|].
  destruct (os_makedirs _ (host w)) as [[e|[]] h]; simpl.
  - exists []. split; [by left | apply grows_with_host].
  - edestruct laz_to_tif_grows as (pipelines & Hreads & Hgrows).
    exists pipelines. split.
    + destruct Hreads as [-> | [stages ->]]; [by left|].
      right. by exists laz_fn, stages.
    + apply (grows_trans [] pipelines _ (with_host w h));
        [apply grows_with_host | exact Hgrows].
Qed.

Lemma run_pool_grows (j : nat → M unit) (P : nat → list Pipeline → Prop) completion w :
  (∀ idx w0, ∃ pipelines, P idx pipelines ∧ grows pipelines w0 (j idx w0).2) →
  ∃ traces, Forall2 P completion traces ∧
    grows (List.concat traces) w (run_pool j completion w).2.
Proof.
  intros Hj. revert w. induction completion as [|idx later IH]; intros w; simpl.
  - exists []. split; [constructor | apply grows_refl].
  - destruct (Hj idx w) as (pipelines & HP & Hgrows).
    destruct (j idx w) as [r w0]. destruct (IH w0) as (traces & Hall & Hrest).
    exists (pipelines :: traces). split; [by constructor|].
    destruct (run_pool j later w0) as [[e|futures] w1]; simpl in *;
      by apply (grows_trans _ _ _ w0).
Qed.

Lemma main_run df las2tif_dpath completion w futures w1 :
  run_pool (job df las2tif_dpath) completion w = (inr futures, w1) →
  main df las2tif_dpath completion w
  = (inr (),
     logged w1
       ((dispatch_line <$> errors futures)
        ++ ["RUN.TIME " ++ format_minutes (perf_counter (host w))
                                          (perf_counter (host w1)) ++ " min(s)"])).
Proof.
  intros Hrun.
  unfold main, mbind at 1, M_bind at 1, perf_now.
  unfold mbind at 1, M_bind at 1. unfold job in Hrun. rewrite Hrun.
  unfold mbind, M_bind. rewrite collect_run. unfold print, logged. simpl.
  by rewrite <- app_assoc.
Qed.

(** X20: the driver only appends to the log, and what it hands to the
    engine is, job by job in the order the jobs complete, nothing or one
    pipeline that reads the point cloud of that job's row: no job is run a
    second time, and nothing is run that is not a job's. *)
Theorem driver_runs_each_job_at_most_once df las2tif_dpath completion w :
  ∃ traces lines,
    Forall2 (job_pipelines df) completion traces ∧
    executed (main df las2tif_dpath completion w).2
    = (executed w ++ List.concat traces)%list ∧
    stdout (main df las2tif_dpath completion w).2 = (stdout w ++ lines)%list.
Proof.
  destruct (run_pool_total (job df las2tif_dpath) completion w)
    as (futures & w1 & Hrun & _).
  rewrite (main_run _ _ _ _ _ _ Hrun). simpl.
  destruct (run_pool_grows (job df las2tif_dpath) (job_pipelines df) completion w)
    as (traces & Hall & Hexec & lines & Hout).
  { intros idx w0. apply process_file_grows. }
  rewrite Hrun in Hexec, Hout. simpl in Hexec, Hout.
  exists traces. eexists. split; [exact Hall|]. split; [exact Hexec|].
  rewrite Hout, <- app_assoc. reflexivity.
Qed.

End MoreConversion.

Section OnlyAtEnd.

Lemma append_inv_head (s t u : string) : s ++ t = s ++ u → t = u.
Proof. induction s as [|c s IH]; [done|]. rewrite !append_cons. intros [= Hs]. auto. Qed.

(** A test for [only_at_end]: the first occurrence is the ending. *)
Lemma only_at_end_test old s :
  old ≠ EmptyString →
  String.eqb (Py.split_head s old ++ old) s = true →
  only_at_end old s.
Proof.
  intros Hold Heq%String.eqb_eq pre suf Hs.
  destruct (split_head_spec old s Hold) as [(rest & Hrest & Hmin) | [_ Hnone]].
  - specialize (Hmin pre suf Hs).
    apply (f_equal String.length) in Heq, Hs.
    rewrite Hs in Heq. rewrite !append_length in Heq.
    destruct suf; [done | simpl in Heq; lia].
  - by destruct (Hnone pre suf).
Qed.

End OnlyAtEnd.

(** * Concrete runs *)

Section Examples.
Import Converter Demo Runs.

(** C1: the converter is run twice with the same arguments.  The first run
    writes the raster under the suffixed name; the second run finds the
    unsuffixed name absent, so it prints no skip notice and hands the same
    pipeline, reader included, to the engine again. *)
Theorem rerun_reads_input_again :
  let w1 := (convert (start [laz])).2 in
  let w2 := (convert w1).2 in
  exists_in (host w1) "/out/T1/a-DTM30m_10_yrclf.tif" = true ∧
  exists_in (host w1) "/out/T1/a-DTM30m_10.tif" = false ∧
  executed w1 = [chain (PyStr laz) "/out/T1/a-DTM30m_10_yrclf.tif" (PyInt 32633)
                       (PyInt 30) (PyInt 10) (PyInt (-9999)) true true] ∧
  executed w2 = (executed w1 ++ executed w1)%list ∧
  skip_line (PyStr "/out/T1/a-DTM30m_10.tif") ∉ stdout w2.
Proof.
  do 4 (split; [vm_compute; reflexivity|]).
  intros Hin%list_elem_of_In. vm_compute in Hin.
  repeat (destruct Hin as [Hin|Hin]; [discriminate Hin|]). exact Hin.
Qed.

(** C7: for a point cloud named [a.tif.laz] the writer is given
    [a_yrclf.tif-DTM30m_10_yrclf.tif]: the replacement also hits the [.tif]
    inside the name, so the path is neither the stem nor the basename followed
    by [-DTM30m_10_yrclf.tif]. *)
Theorem tif_in_name_breaks_pattern :
  let run := process_file (H:=demo_host) 0 (table [tif_row]) (PyInt 30) (PyInt 10)
               (PyInt (-9999)) "DTM" "/out" true true (start ["/data/T1/a.tif.laz"]) in
  executed run.2
  = [chain (PyStr "/data/T1/a.tif.laz") "/out/T1/a_yrclf.tif-DTM30m_10_yrclf.tif"
           (PyInt 32633) (PyInt 30) (PyInt 10) (PyInt (-9999)) true true] ∧
  "/out/T1/a_yrclf.tif-DTM30m_10_yrclf.tif" ≠ "/out/T1/a.tif-DTM30m_10_yrclf.tif" ∧
  "/out/T1/a_yrclf.tif-DTM30m_10_yrclf.tif" ≠ "/out/T1/a.tif.laz-DTM30m_10_yrclf.tif".
Proof. split; [vm_compute; reflexivity | split; discriminate]. Qed.

(** C6, as stated, fails: with the failing row first or second the driver
    prints the same lines, so no reading of the log tells which job failed. *)
Lemma dispatch_log_omits_job_index :
  let pool rows :=
    match (run_pool (H:=demo_host) (job (table rows) "/out") [0; 1] (start [laz])).1 with
    | inr futures => failed futures
    | inl _ => []
    end in
  pool [bad_row; good_row] = [0] ∧
  pool [good_row; bad_row] = [1] ∧
  stdout (drive [bad_row; good_row]).2 = stdout (drive [good_row; bad_row]).2 ∧
  ¬ ∃ read : list string → list nat,
      read (stdout (drive [bad_row; good_row]).2) = [0] ∧
      read (stdout (drive [good_row; bad_row]).2) = [1].
Proof.
  assert (Hsame : stdout (drive [bad_row; good_row]).2
                  = stdout (drive [good_row; bad_row]).2) by (vm_compute; reflexivity).
  do 2 (split; [vm_compute; reflexivity|]). split; [exact Hsame|].
  intros (read & Ha & Hb). rewrite Hsame in Ha. congruence.
Qed.

End Examples.

(** * Witnesses *)

Section Witnesses.
Import Converter Demo Runs.

Ltac in_columns Hc :=
  rewrite !elem_of_cons, elem_of_nil in Hc;
  destruct Hc as [-> | [-> | [-> | [-> | []]]]]; vm_compute; eauto.

Ltac a_geodataframe := split; [reflexivity | vm_compute; eauto].

(** The scenario of the specification: record [A] resolves, record [C] does not. *)
Lemma filepath_is_first_prefix_match_witness :
  Linker.gdf_columns geo_gdf !! "datafile" = Some (PyStr <$> datafiles) ∧
  ∃ meta' paths,
    Linker.assign_filepath lazfiles geo_gdf = inr meta' ∧
    Linker.gdf_columns meta' !! "filepath" = Some paths ∧
    Forall2 (resolved lazfiles) datafiles paths.
Proof.
  split; [vm_compute; reflexivity|].
  apply (filepath_is_first_prefix_match lazfiles geo_gdf datafiles).
  vm_compute; reflexivity.
Defined.

(** The same scenario through the whole script, on a layer whose geometries
    are null: one record of two is unmatched. *)
Lemma persisted_rows_are_matched_witness :
  ready null_gdf datafiles ∧
  List.length (unmatched lazfiles datafiles) = 1 ∧
  ∃ arts, Linker.script demo_transform "/meta/tiles.gpkg" lazfiles null_gdf = inr arts ∧
    Forall (λ frame,
      (∃ paths, Linker.gdf_columns frame !! "filepath" = Some paths ∧
         Forall (λ v, isnull v = false) paths ∧
         List.length paths = Linker.len frame) ∧
      Linker.len frame + List.length (unmatched lazfiles datafiles) = Linker.len null_gdf)
    [(Linker.native_gpkg arts).2; (Linker.epsg4326_gpkg arts).2; (Linker.flat_csv arts).2].
Proof.
  assert (Hready : ready null_gdf datafiles).
  { split; [a_geodataframe|]. split; [vm_compute; reflexivity|]. split; [reflexivity|].
    intros col Hc. in_columns Hc. }
  split; [exact Hready|]. split; [vm_compute; reflexivity|].
  exact (persisted_rows_are_matched demo_transform "/meta/tiles.gpkg" lazfiles null_gdf
           datafiles Hready).
Defined.

(** The script on a frame with point geometries in EPSG:32633. *)
Lemma artifacts_agree_off_geometry_witness :
  ready geo_gdf datafiles ∧
  ∃ arts, Linker.script demo_transform "/meta/tiles.gpkg" lazfiles geo_gdf = inr arts ∧
    let native := (Linker.native_gpkg arts).2 in
    let standard := (Linker.epsg4326_gpkg arts).2 in
    let flat := (Linker.flat_csv arts).2 in
    Linker.gdf_index standard = Linker.gdf_index native ∧
    Linker.gdf_index flat = Linker.gdf_index native ∧
    (∀ col, col ≠ "geometry" →
       Linker.gdf_columns standard !! col = Linker.gdf_columns native !! col ∧
       Linker.gdf_columns flat !! col = Linker.gdf_columns native !! col) ∧
    Linker.gdf_columns flat !! "geometry" = None ∧
    Linker.gdf_crs standard = Some 4326%Z ∧
    ∃ src, Linker.gdf_crs native = Some src ∧
      Linker.gdf_columns standard !! "geometry"
      = (if (src =? 4326)%Z then id else fmap (Linker.reproject demo_transform src 4326))
          <$> Linker.gdf_columns native !! "geometry".
Proof.
  assert (Hready : ready geo_gdf datafiles).
  { split; [a_geodataframe|]. split; [vm_compute; reflexivity|]. split; [reflexivity|].
    intros col Hc. in_columns Hc. }
  split; [exact Hready|].
  exact (artifacts_agree_off_geometry demo_transform "/meta/tiles.gpkg" lazfiles geo_gdf
           datafiles Hready).
Defined.

(** Both repairs on a layer of null geometries without a CRS. *)
Lemma geodataframe_repairs_witness :
  is_geodataframe null_gdf ∧
  ∃ repaired, Linker.ensure_crs (Linker.ensure_geometry null_gdf) = inr repaired ∧
    Linker.gdf_columns repaired !! "geometry"
    = Some [PyGeom (Point 0 0); PyGeom (Point 0 0)] ∧
    Linker.gdf_crs repaired = Some 4326%Z.
Proof.
  assert (Hgeo : is_geodataframe null_gdf) by a_geodataframe.
  split; [exact Hgeo|].
  destruct (geodataframe_repairs null_gdf Hgeo) as (repaired & Hrun & Hgeom & Hcrs & _).
  exists repaired. split; [exact Hrun|]. split; [|exact (Hcrs eq_refl)].
  apply Hgeom. exists [PyNone; PyNone]. split; [vm_compute; reflexivity|].
  repeat constructor.
Defined.

(** The chain for a terrain model with reclassification. *)
Lemma filter_chain_order_witness :
  os_path_exists (PyStr "/out/T1/a-DTM30m_10.tif") (host (start [laz])) = inr false ∧
  executed (convert (start [laz])).2
  = [[Reader (PyStr laz);
      Filter_expression "Classification != 7";
      Filter_assign "Classification[:]=0";
      Filter_reprojection "EPSG:32633";
      Filter_smrf;
      Filter_expression "Classification == 2";
      Writer_gdal (PyStr "/out/T1/a-DTM30m_10_yrclf.tif") "tiled=yes,compress=deflate"
                  (PyInt (-9999)) "idw" (PyInt 30) (PyInt 10)]].
Proof.
  split; [reflexivity|].
  exact (filter_chain_order (H:=demo_host) (PyStr laz) "/out/T1/a-DTM30m_10.tif"
           (PyInt 32633) (PyInt 30) (PyInt 10) (PyInt (-9999)) true true (start [laz])
           eq_refl).
Defined.

(** Two jobs, the second completing first; the first one raises. *)
Lemma driver_collects_every_job_witness :
  Permutation [1; 0] (seq 0 (df_len (table [bad_row; good_row]))) ∧
  ∃ futures w1,
    run_pool (job (table [bad_row; good_row]) "/out") [1; 0] (start [laz])
    = (inr futures, w1) ∧
    (∀ idx, (idx < 2)%nat → ∃ r, (idx, r) ∈ futures) ∧
    main (table [bad_row; good_row]) "/out" [1; 0] (start [laz])
    = (inr (),
       logged w1 ((dispatch_line <$> errors futures) ++ ["RUN.TIME 0.0 min(s)"])).
Proof.
  assert (Hperm : Permutation [1; 0] (seq 0 (df_len (table [bad_row; good_row]))))
    by apply perm_swap.
  split; [exact Hperm|].
  exact (driver_collects_every_job (H:=demo_host) (table [bad_row; good_row]) "/out"
           [1; 0] (start [laz]) Hperm).
Defined.

(** A non-numeric [epsg] and a directory that cannot be created. *)
Lemma job_setup_is_unguarded_witness :
  process_file (H:=demo_host) 0 (table [bad_row]) (PyInt 30) (PyInt 10) (PyInt (-9999))
               "DTM" "/out" true true (start [laz])
  = (raise "ValueError" "invalid literal for int() with base 10: 'abc'", start [laz]) ∧
  process_file (H:=demo_host) 0 (table [proc_row]) (PyInt 30) (PyInt 10) (PyInt (-9999))
               "DTM" "/out" true true (start [laz])
  = (raise "PermissionError" "[Errno 13] Permission denied: '/proc/T1'", start [laz]).
Proof.
  split.
  - apply (job_setup_is_unguarded (H:=demo_host) 0 (table [bad_row]) (PyInt 30)
             (PyInt 10) (PyInt (-9999)) "DTM" "/out" true true (start [laz])).
    vm_compute; reflexivity.
  - apply (proj1 (proj2 (job_setup_is_unguarded (H:=demo_host) 0 (table [proc_row])
             (PyInt 30) (PyInt 10) (PyInt (-9999)) "DTM" "/out" true true (start [laz])))
             "/proc/T1" (PyStr laz) 32633%Z "a.laz").
    + vm_compute; reflexivity.
    + vm_compute; reflexivity.
    + vm_compute; reflexivity.
Defined.

(** The path given as [tif_fn] is on disk. *)
Lemma laz_to_tif_skip_witness :
  os_path_exists (PyStr "/out/T1/a-DTM30m_10.tif")
                 (host (start [laz; "/out/T1/a-DTM30m_10.tif"])) = inr true ∧
  convert (start [laz; "/out/T1/a-DTM30m_10.tif"])
  = (inr (),
     logged (start [laz; "/out/T1/a-DTM30m_10.tif"])
       ["Output file '/out/T1/a-DTM30m_10.tif' already exists. Skipping processing."]).
Proof.
  split; [reflexivity|].
  exact (laz_to_tif_skip (H:=demo_host) (PyStr laz) (PyStr "/out/T1/a-DTM30m_10.tif")
           (PyInt 32633) (PyInt 30) (PyInt 10) (PyInt (-9999)) true true
           (start [laz; "/out/T1/a-DTM30m_10.tif"]) eq_refl).
Defined.

(** The name for [a.laz]. *)
Lemma raster_name_pattern_witness :
  only_at_end ".tif" (raster_path "/out" "T1" "a.laz" "DTM" (PyInt 30) (PyInt 10)) ∧
  suffixed (raster_path "/out" "T1" "a.laz" "DTM" (PyInt 30) (PyInt 10)) true
  = "/out/T1/a-DTM30m_10_yrclf.tif".
Proof.
  assert (Honly : only_at_end ".tif"
                    (raster_path "/out" "T1" "a.laz" "DTM" (PyInt 30) (PyInt 10))).
  { apply only_at_end_test; [done | vm_compute; reflexivity]. }
  split; [exact Honly|].
  exact (raster_name_pattern "/out" "T1" "a.laz" "DTM" (PyInt 30) (PyInt 10) true Honly).
Defined.


(** The engine cannot open the input: the error is logged, the call returns. *)
Lemma laz_to_tif_never_raises_witness :
  ∃ e w1,
    laz_to_tif_suite (H:=demo_host) (PyStr laz) (PyStr "/out/T1/a-DTM30m_10.tif")
      (PyInt 32633) (PyInt 30) (PyInt 10) (PyInt (-9999)) true true (start []) = (inl e, w1) ∧
    exc_class e = "RuntimeError" ∧
    convert (start [])
    = (inr (), logged w1 ["An error occurred during processing for /data/T1/a.laz: readers.las: Unable to open stream for '/data/T1/a.laz' with error 'No such file or directory'"]).
Proof.
  destruct (laz_to_tif_never_raises (H:=demo_host) (PyStr laz)
              (PyStr "/out/T1/a-DTM30m_10.tif") (PyInt 32633) (PyInt 30) (PyInt 10)
              (PyInt (-9999)) true true (start [])) as (w' & Hrun & Hlog).
  eexists _, _. split; [vm_compute; reflexivity|]. split; [reflexivity|].
  unfold convert. rewrite Hrun. f_equal.
  etransitivity; [apply Hlog; vm_compute; reflexivity | vm_compute; reflexivity].
Defined.

End Witnesses.

(** * Witnesses of the further properties *)

Section FurtherWitnesses.
Import Converter Demo Runs Cases.

Ltac columns_present Hc :=
  rewrite !elem_of_cons, elem_of_nil in Hc;
  destruct Hc as [-> | [-> | [-> | [-> | []]]]]; vm_compute; eauto.

Ltac is_a_geodataframe := split; [reflexivity | vm_compute; eauto].

Ltac frame_ready :=
  split; [is_a_geodataframe|]; split; [vm_compute; reflexivity|]; split; [reflexivity|];
  let col := fresh "col" in let Hc := fresh "Hc" in
  intros col Hc; columns_present Hc.

Ltac not_a_str := let s := fresh "s" in let Hs := fresh "Hs" in
  intros [s Hs]; discriminate Hs.

(** The columns of the scenario's artifacts. *)
Lemma persisted_columns_are_whitelist_witness :
  ready geo_gdf datafiles ∧
  ∃ arts, Linker.script demo_transform "/meta/tiles.gpkg" lazfiles geo_gdf = inr arts ∧
    ∀ col,
      (is_Some (Linker.gdf_columns (Linker.native_gpkg arts).2 !! col)
       ↔ col ∈ Linker.metacols) ∧
      (is_Some (Linker.gdf_columns (Linker.epsg4326_gpkg arts).2 !! col)
       ↔ col ∈ Linker.metacols) ∧
      (is_Some (Linker.gdf_columns (Linker.flat_csv arts).2 !! col)
       ↔ col ∈ Linker.metacols ∧ col ≠ "geometry").
Proof.
  assert (Hready : ready geo_gdf datafiles) by frame_ready.
  split; [exact Hready|].
  exact (persisted_columns_are_whitelist demo_transform "/meta/tiles.gpkg" lazfiles
           geo_gdf datafiles Hready).
Defined.

(** The scenario keeps its first row only. *)
Lemma persisted_rows_stay_aligned_witness :
  ready geo_gdf datafiles ∧
  keep_mask lazfiles datafiles = [true; false] ∧
  ∃ arts, Linker.script demo_transform "/meta/tiles.gpkg" lazfiles geo_gdf = inr arts ∧
    Linker.gdf_index (Linker.native_gpkg arts).2 = [0] ∧
    Linker.gdf_columns (Linker.native_gpkg arts).2 !! "datafile"
    = Some [PyStr "A_dn_001_extra.ext"] ∧
    Linker.gdf_columns (Linker.native_gpkg arts).2 !! "filepath"
    = Some [PyStr "/lidar/g1/A_dn_001.laz"].
Proof.
  assert (Hready : ready geo_gdf datafiles) by frame_ready.
  split; [exact Hready|]. split; [vm_compute; reflexivity|].
  destruct (persisted_rows_stay_aligned demo_transform "/meta/tiles.gpkg" lazfiles
              geo_gdf datafiles Hready) as (arts & Hrun & Hidx & _ & _ & Hd & Hf).
  exists arts. split; [exact Hrun|]. split; [exact Hidx|]. split; [exact Hd | exact Hf].
Defined.

Lemma script_needs_datafile_witness :
  is_geodataframe no_datafile_gdf ∧
  Linker.gdf_columns no_datafile_gdf !! "datafile" = None ∧
  Linker.script demo_transform "/meta/tiles.gpkg" lazfiles no_datafile_gdf
  = raise "KeyError" "'datafile'".
Proof.
  assert (Hgeo : is_geodataframe no_datafile_gdf) by is_a_geodataframe.
  assert (Hnone : Linker.gdf_columns no_datafile_gdf !! "datafile" = None)
    by (vm_compute; reflexivity).
  split; [exact Hgeo|]. split; [exact Hnone|].
  exact (script_needs_datafile demo_transform "/meta/tiles.gpkg" lazfiles
           no_datafile_gdf Hgeo Hnone).
Defined.

Lemma script_needs_whitelisted_columns_witness :
  is_geodataframe no_id_gdf ∧
  Linker.gdf_columns no_id_gdf !! "id" = None ∧
  Linker.script demo_transform "/meta/tiles.gpkg" lazfiles no_id_gdf
  = raise "KeyError" "['id'] not in index" ∧
  ∃ e, Linker.script demo_transform "/meta/tiles.gpkg" lazfiles no_id_gdf = inl e ∧
       exc_class e = "KeyError".
Proof.
  assert (Hgeo : is_geodataframe no_id_gdf) by is_a_geodataframe.
  assert (Hnone : Linker.gdf_columns no_id_gdf !! "id" = None)
    by (vm_compute; reflexivity).
  split; [exact Hgeo|]. split; [exact Hnone|]. split; [vm_compute; reflexivity|].
  apply (script_needs_whitelisted_columns demo_transform "/meta/tiles.gpkg" lazfiles
           no_id_gdf datafiles "id");
    [exact Hgeo | vm_compute; reflexivity | left | exact Hnone].
Defined.

Lemma script_rejects_null_datafile_witness :
  is_geodataframe nan_gdf ∧
  ∃ e, Linker.script demo_transform "/meta/tiles.gpkg" lazfiles nan_gdf = inl e ∧
       exc_class e = "TypeError".
Proof.
  assert (Hgeo : is_geodataframe nan_gdf) by is_a_geodataframe.
  split; [exact Hgeo|].
  apply (script_rejects_null_datafile demo_transform "/meta/tiles.gpkg" lazfiles nan_gdf
           [PyStr "A_dn_001_extra.ext"; PyNaN]);
    [exact Hgeo | vm_compute; reflexivity|].
  apply Exists_cons_tl, Exists_cons_hd. not_a_str.
Defined.

Lemma no_files_no_rows_witness :
  ready geo_gdf datafiles ∧
  ∃ arts, Linker.script demo_transform "/meta/tiles.gpkg" [] geo_gdf = inr arts ∧
    Linker.gdf_index (Linker.native_gpkg arts).2 = [] ∧
    Linker.gdf_index (Linker.epsg4326_gpkg arts).2 = [] ∧
    Linker.gdf_index (Linker.flat_csv arts).2 = [].
Proof.
  assert (Hready : ready geo_gdf datafiles) by frame_ready.
  split; [exact Hready|].
  exact (no_files_no_rows demo_transform "/meta/tiles.gpkg" geo_gdf datafiles Hready).
Defined.

(** A layer of null geometries without a CRS. *)
Lemma placeholder_geometry_is_persisted_witness :
  ready null_gdf datafiles ∧
  Linker.gdf_columns null_gdf !! "geometry" = Some [PyNone; PyNone] ∧
  ∃ arts, Linker.script demo_transform "/meta/tiles.gpkg" lazfiles null_gdf = inr arts ∧
    let native := (Linker.native_gpkg arts).2 in
    Linker.gdf_columns native !! "geometry"
    = Some (replicate (Linker.len native) (PyGeom (Point 0 0))) ∧
    Linker.gdf_crs native = Some (default 4326%Z (Linker.gdf_crs null_gdf)).
Proof.
  assert (Hready : ready null_gdf datafiles) by frame_ready.
  assert (Hg : Linker.gdf_columns null_gdf !! "geometry" = Some [PyNone; PyNone])
    by (vm_compute; reflexivity).
  split; [exact Hready|]. split; [exact Hg|].
  apply (placeholder_geometry_is_persisted demo_transform "/meta/tiles.gpkg" lazfiles
           null_gdf datafiles [PyNone; PyNone] Hready Hg).
  repeat constructor.
Defined.

Lemma empty_base_matches_first_file_witness :
  is_prefix "_dn_" (Py.basename "/tiles/_dn_042_extra.ext") ∧
  Linker.find_closest_match_datafile (PyStr "/tiles/_dn_042_extra.ext") lazfiles
  = inr (PyStr "/lidar/g1/A_dn_001.laz").
Proof.
  assert (Hpre : is_prefix "_dn_" (Py.basename "/tiles/_dn_042_extra.ext")).
  { by exists "042_extra.ext". }
  split; [exact Hpre|].
  exact (empty_base_matches_first_file "/tiles/_dn_042_extra.ext"
           "/lidar/g1/A_dn_001.laz" ["/lidar/g2/B_dn_002.laz"] (or_introl Hpre)).
Defined.

Lemma output_names_from_gpkg_witness :
  only_at_end ".gpkg" "/meta/tiles.gpkg" ∧ ready geo_gdf datafiles ∧
  ∃ arts, Linker.script demo_transform "/meta/tiles.gpkg" lazfiles geo_gdf = inr arts ∧
    (Linker.native_gpkg arts).1 = "/meta/tiles_locpaths.gpkg" ∧
    (Linker.epsg4326_gpkg arts).1 = "/meta/tiles_locpaths_epsg4326.gpkg" ∧
    (Linker.flat_csv arts).1 = "/meta/tiles_locpaths.csv".
Proof.
  assert (Honly : only_at_end ".gpkg" "/meta/tiles.gpkg").
  { apply only_at_end_test; [done | vm_compute; reflexivity]. }
  assert (Hready : ready geo_gdf datafiles) by frame_ready.
  split; [exact Honly|]. split; [exact Hready|].
  destruct (output_names_from_gpkg demo_transform "/meta/tiles.gpkg" "/meta/tiles"
              lazfiles geo_gdf datafiles eq_refl Honly Hready)
    as (arts & Hrun & H1 & H2 & H3 & _).
  exists arts. split; [exact Hrun|]. split; [exact H1|]. split; [exact H2 | exact H3].
Defined.

Lemma output_names_without_gpkg_witness :
  Py.contains "/meta/tiles.shp" ".gpkg" = false ∧ ready geo_gdf datafiles ∧
  ∃ arts, Linker.script demo_transform "/meta/tiles.shp" lazfiles geo_gdf = inr arts ∧
    (Linker.native_gpkg arts).1 = "/meta/tiles.shp" ∧
    (Linker.epsg4326_gpkg arts).1 = "/meta/tiles.shp" ∧
    (Linker.flat_csv arts).1 = "/meta/tiles.shp".
Proof.
  assert (Hready : ready geo_gdf datafiles) by frame_ready.
  split; [reflexivity|]. split; [exact Hready|].
  exact (output_names_without_gpkg demo_transform "/meta/tiles.shp" lazfiles geo_gdf
           datafiles eq_refl Hready).
Defined.


Lemma laz_to_tif_rejects_bad_output_name_witness :
  ¬ is_str PyNone ∧
  ∃ w' line,
    laz_to_tif (H:=demo_host) (PyStr laz) PyNone (PyInt 32633) (PyInt 30) (PyInt 10)
               (PyInt (-9999)) true true (start [laz]) = (inr (), w') ∧
    host w' = host (start [laz]) ∧ executed w' = executed (start [laz]) ∧
    stdout w' = (stdout (start [laz]) ++ [line])%list.
Proof.
  assert (Hnone : ¬ is_str PyNone) by not_a_str.
  split; [exact Hnone|].
  exact (laz_to_tif_rejects_bad_output_name (H:=demo_host) (PyStr laz) PyNone
           (PyInt 32633) (PyInt 30) (PyInt 10) (PyInt (-9999)) true true (start [laz])
           Hnone).
Defined.

Lemma process_file_rejects_null_filepath_witness :
  get_params (table [nan_row]) 0 = inr ("T1", PyNaN, 32633%Z) ∧ ¬ is_str PyNaN ∧
  ∃ e, process_file (H:=demo_host) 0 (table [nan_row]) (PyInt 30) (PyInt 10)
         (PyInt (-9999)) "DTM" "/out" true true (start [laz]) = (inl e, start [laz]) ∧
       exc_class e = "TypeError".
Proof.
  assert (Hp : get_params (table [nan_row]) 0 = inr ("T1", PyNaN, 32633%Z))
    by (vm_compute; reflexivity).
  assert (Hnan : ¬ is_str PyNaN) by not_a_str.
  split; [exact Hp|]. split; [exact Hnan|].
  exact (process_file_rejects_null_filepath (H:=demo_host) 0 (table [nan_row]) (PyInt 30)
           (PyInt 10) (PyInt (-9999)) "DTM" "/out" true true (start [laz]) "T1" PyNaN
           32633%Z Hp Hnan).
Defined.

(** Row 1 of a table of one row. *)
Lemma get_params_key_error_witness :
  ∃ e, get_params (table [good_row]) 1 = inl e ∧ exc_class e = "KeyError".
Proof.
  apply (get_params_key_error (table [good_row]) 1 "transect"); [left|].
  intros series Hs. vm_compute in Hs. injection Hs as <-. simpl. lia.
Defined.

Lemma get_params_reads_textual_epsg_witness :
  get_params (table [good_row]) 0 = inr ("T1", PyStr laz, 32633%Z).
Proof.
  apply (get_params_reads_textual_epsg (table [good_row]) 0 (PyStr "T1") (PyStr laz)
           32633%Z); [vm_compute; reflexivity | vm_compute; reflexivity |].
  right. vm_compute; reflexivity.
Defined.

Lemma process_file_converts_row_witness :
  executed (process_file (H:=demo_host) 0 (table [good_row]) (PyInt 30) (PyInt 10)
              (PyInt (-9999)) "DTM" "/out" true true (start [laz])).2
  = [chain (PyStr laz) tif_yrclf (PyInt 32633) (PyInt 30) (PyInt 10) (PyInt (-9999))
           true true].
Proof.
  apply (process_file_converts_row (H:=demo_host) 0 (table [good_row]) (PyInt 30)
           (PyInt 10) (PyInt (-9999)) "DTM" "/out" true true (start [laz]) (PyStr "T1")
           laz (PyStr "32633") 32633%Z [laz; "/out/T1"]);
    vm_compute; reflexivity.
Defined.

Lemma laz_to_tif_reports_first_array_witness :
  stdout (convert (start [laz])).2
  = ["Processing completed for /out/T1/a-DTM30m_10_yrclf.tif in 0.00 seconds.";
     "Processed point cloud contains 42 points";
     "Output saved to /out/T1/a-DTM30m_10_yrclf.tif"].
Proof.
  apply (laz_to_tif_reports_first_array (H:=demo_host) (PyStr laz) tif (PyInt 32633)
           (PyInt 30) (PyInt 10) (PyInt (-9999)) true true (start [laz]) [42]
           [laz; tif_yrclf]); reflexivity.
Defined.

Lemma laz_to_tif_logs_engine_error_witness :
  ∃ e, convert (start [])
       = (inr (), mkWorld (H:=demo_host) []
                    [error_line (PyStr laz) e]
                    [chain (PyStr laz) tif_yrclf (PyInt 32633) (PyInt 30) (PyInt 10)
                           (PyInt (-9999)) true true]).
Proof.
  eexists.
  apply (laz_to_tif_logs_engine_error (H:=demo_host) (PyStr laz) tif (PyInt 32633)
           (PyInt 30) (PyInt 10) (PyInt (-9999)) true true (start [])); reflexivity.
Defined.

End FurtherWitnesses.
